(** * University records service: validation rules and persistence

    A shallow embedding of the validators (dtool/validators.py), the
    persistence layer (dtool/crud.py) and the request handlers
    (student.py, master.py, course.py), with the properties of the
    specification stated over them. *)

From Stdlib Require Import ZArith Lia.
From stdpp Require Import gmap strings list fin_maps.

Local Open Scope Z_scope.

(** ** Python values, strings and exceptions *)

(** A Python [str] is a sequence of Unicode code points. *)
Abbreviation pystr := (list Z).

(** [u "text"] is the Python string literal with the given ASCII text. *)
Definition u (s : string) : pystr :=
  map (fun a => Z.of_nat (Ascii.nat_of_ascii a)) (String.list_ascii_of_string s).

Inductive pyval :=
| VNone
| VBool (b : bool)
| VInt (n : Z)
| VStr (s : pystr)
| VList (l : list Z).

#[global] Instance pyval_eq_dec : EqDecision pyval.
Proof. solve_decision. Defined.

(** Truth value testing, as done by [not], [if] and [and]. *)
Definition truthy (v : pyval) : bool :=
  match v with
  | VNone => false
  | VBool b => b
  | VInt n => negb (n =? 0)
  | VStr s => negb (length s =? 0)%nat
  | VList l => negb (length l =? 0)%nat
  end.

(** The body of an [HTTPException]: a plain message, or the aggregate
    object [{"detail": "Validation error", "errors": errors}]. *)
Inductive detail :=
| DetailStr (msg : pystr)
| DetailValidation (errors : gmap string pystr).

(** The exceptions of the interpreter and of the libraries. *)
Inductive error :=
| TypeError
| ValueError
| IndexError
| AttributeError
| IntegrityError           (* sqlalchemy.exc *)
| DataError                (* sqlalchemy.exc *)
| UnmappedInstanceError.   (* sqlalchemy.orm.exc *)

Inductive exn :=
| HTTPException (status_code : Z) (d : detail)
| Error (e : error).
Coercion Error : error >-> exn.

Inductive res (A : Type) :=
| Ok (a : A)
| Raise (e : exn).
Arguments Ok {A} a.
Arguments Raise {A} e.

#[global] Instance res_ret : MRet res := fun A a => Ok a.
#[global] Instance res_bind : MBind res := fun A B f m =>
  match m with
  | Ok a => f a
  | Raise e => Raise e
  end.

(** ** Built-ins used by the validators *)

Fixpoint digits_of (fuel : nat) (n : Z) : pystr :=
  match fuel with
  | O => []
  | S f => if n <? 10 then [48 + n] else digits_of f (n / 10) ++ [48 + n mod 10]
  end.

(** [str(n)] for an [int]: decimal digits, with a leading minus sign
    (code point 45) for a negative number. *)
Definition py_str (n : Z) : pystr :=
  if n <? 0 then 45 :: digits_of (Z.to_nat (Z.log2 (- n)) + 1) (- n)
  else digits_of (Z.to_nat (Z.log2 n) + 1) n.

(** [s * k] for a string [s] and an [int] [k]: empty when [k <= 0]. *)
Definition str_mul (s : pystr) (k : Z) : pystr :=
  mjoin (replicate (Z.to_nat k) s).

(** [s[i]] for a non-negative index. *)
Definition getitem (s : pystr) (i : nat) : res pystr :=
  match s !! i with
  | Some c => Ok [c]
  | None => Raise IndexError
  end.

Definition is_ascii_digit (c : Z) : bool := (48 <=? c) && (c <=? 57).

(** [int(s)] on the strings this program passes to it, which are slices
    of [str(n)]: a non-empty run of ASCII digits is read in base ten and
    anything else (here: a slice holding the minus sign) is a
    [ValueError]. *)
Definition py_int (s : pystr) : res Z :=
  match s with
  | [] => Raise ValueError
  | _ => if forallb is_ascii_digit s
         then Ok (fold_left (fun acc c => 10 * acc + (c - 48)) s 0)
         else Raise ValueError
  end.

(** [sum(f(i) for i in l)]: the terms are evaluated in order and the
    first exception ends the sum. *)
Fixpoint sum_gen (f : nat -> res Z) (l : list nat) (acc : Z) : res Z :=
  match l with
  | [] => Ok acc
  | i :: l' => v ← f i; sum_gen f l' (acc + v)
  end.

(** ** dtool/validators.py: the national identifier *)

Definition coefficients : list Z := [10; 9; 8; 7; 6; 5; 4; 3; 2].

Definition validate_national_id (n : Z) : res pyval :=
  let len_n := Z.of_nat (length (py_str n)) in
  if (len_n <? 8) || (len_n >? 10) then Ok (VBool false)
  else
    let n_id := if len_n <? 10 then str_mul (u "0") (10 - len_n + n)
                else py_str n in
    total ← sum_gen (fun i => d ← getitem n_id i;
                              v ← py_int d;
                              c ← match coefficients !! i with
                                  | Some c => Ok c
                                  | None => Raise IndexError
                                  end;
                              Ok (v * c)) (seq 0 9) 0;
    let reminder := total `mod` 11 in
    d ← getitem n_id 9;
    v ← py_int d;
    if reminder <? 2 then Ok (VBool (v =? reminder))
    else Ok (VBool (v =? 11 - reminder)).

(** ** Regular expressions

    The patterns of the program use character sets, the anchors [^] and
    [$], concatenation, alternation, [?], [+] and counted repetition.
    [ends r s i] lists the positions at which a match of [r] that starts
    at position [i] of [s] can end, so that a pattern matches when the
    list is not empty. *)

Inductive regex :=
| REps
| RSet (p : Z -> bool)
| RBol
| REol
| RCat (r1 r2 : regex)
| RAlt (r1 r2 : regex)
| ROpt (r : regex)
| RPlus (r : regex)
| RRep (n : nat) (r : regex).

Definition RChar (c : Z) : regex := RSet (Z.eqb c).

(** [.] matches any character except a newline. *)
Definition RDot : regex := RSet (fun c => negb (c =? 10)).

Definition in_range (lo hi c : Z) : bool := (lo <=? c) && (c <=? hi).

(** A literal run of characters. *)
Fixpoint RLit (s : pystr) : regex :=
  match s with
  | [] => REps
  | c :: s' => RCat (RChar c) (RLit s')
  end.

(** One or more iterations of a step; an iteration that consumes
    nothing is not repeated. *)
Fixpoint plus_loop (step : nat -> list nat) (fuel : nat) (i : nat) : list nat :=
  match fuel with
  | O => []
  | S f => j ← step i; if (i <? j)%nat then plus_loop step f j ++ [j] else [j]
  end.

Fixpoint ends (r : regex) (s : pystr) (i : nat) : list nat :=
  match r with
  | REps => [i]
  | RSet p =>
      match s !! i with
      | Some c => if p c then [S i] else []
      | None => []
      end
  | RBol => if (i =? 0)%nat then [i] else []
  | REol =>
      (* the end of the string, or just before a newline that ends it *)
      if (i =? length s)%nat
         || ((S i =? length s)%nat && bool_decide (s !! i = Some 10))
      then [i] else []
  | RCat r1 r2 => j ← ends r1 s i; ends r2 s j
  | RAlt r1 r2 => ends r1 s i ++ ends r2 s i
  | ROpt r1 => ends r1 s i ++ [i]
  | RPlus r1 => plus_loop (ends r1 s) (S (length s)) i
  | RRep n r1 => Nat.iter n (fun k i' => j ← ends r1 s i'; k j) (fun i' => [i']) i
  end.

(** [re.match(r, s)] finds a match: one that starts at position 0. *)
Definition re_match (r : regex) (s : pystr) : bool :=
  match ends r s 0 with
  | [] => false
  | _ => true
  end.

(** [re.findall(r, s)] is not empty: a match starts at some position. *)
Definition re_findall (r : regex) (s : pystr) : bool :=
  existsb (fun i => match ends r s i with [] => false | _ => true end)
          (seq 0 (S (length s))).

(** [\s] on a [str] pattern: the Unicode whitespace characters. *)
Definition is_space (c : Z) : bool :=
  in_range 9 13 c || in_range 28 32 c || (c =? 133) || (c =? 160)
  || (c =? 5760) || in_range 8192 8202 c || (c =? 8232) || (c =? 8233)
  || (c =? 8239) || (c =? 8287) || (c =? 12288).

(** ** External data

    The reference lists are read from JSON files at validation time, the
    Jalali calendar comes from the [jdatetime] package and the classes
    [\d] and [\w] from the Unicode database of the interpreter; none of
    them is part of the program, so they are parameters of it. *)

Record Env := {
  iran_provinces : list pystr;      (* iran_provinces.json *)
  province : list pystr;            (* province.json *)
  engineering_fields : list pystr;  (* engineering_fields.json *)
  (* jdatetime.datetime.strptime(d, '%Y/%m/%d'): returns (None) or
     raises an exception *)
  jstrptime : pyval -> option error;
  uni_digit : Z -> bool;            (* \d *)
  uni_word : Z -> bool              (* \w *)
}.

(** ** dtool/validators.py: the other validators *)

(** [try: strptime(...); return True / except ValueError: return False] *)
Definition check_shamsi (env : Env) (d_str : pyval) : res pyval :=
  match jstrptime env d_str with
  | None => Ok (VBool true)
  | Some ValueError => Ok (VBool false)
  | Some e => Raise e
  end.

Definition farsi_class (c : Z) : bool :=
  in_range 1536 1791 c || is_space c || in_range 49 57 c.

(** [^[\u0600-\u06FF\s1-9]+$] *)
Definition farsi_pattern : regex :=
  RCat RBol (RCat (RPlus (RSet farsi_class)) REol).

Definition check_farsi_name (n : pystr) : pyval :=
  if re_match farsi_pattern n then VBool true else VBool false.

Fixpoint is_prefix (p s : pystr) : bool :=
  match p, s with
  | [], _ => true
  | a :: p', b :: s' => (a =? b) && is_prefix p' s'
  | _ :: _, [] => false
  end.

(** [sub in s] for two strings. *)
Fixpoint py_in (sub s : pystr) : bool :=
  is_prefix sub s
  || match s with
     | [] => false
     | _ :: s' => py_in sub s'
     end.

(** [for x in ob: if test(x): return True], falling off the end of the
    function, which returns [None]. *)
Fixpoint first_match (test : pystr -> bool) (ob : list pystr) : pyval :=
  match ob with
  | [] => VNone
  | x :: ob' => if test x then VBool true else first_match test ob'
  end.

Definition is_center (env : Env) (n : pystr) : pyval :=
  first_match (fun char => py_in char n) (iran_provinces env).

Definition is_cities (env : Env) (n : pystr) : pyval :=
  first_match (fun char => py_in char n) (province env).

(** The seven trusted college names, as code points. *)
Definition lst_college : list pystr :=
  [ [1601; 1606; 1740; 32; 1608; 32; 1605; 1607; 1606; 1583; 1587; 1740];
    [1593; 1604; 1608; 1605; 32; 1662; 1575; 1740; 1607];
    [1593; 1604; 1608; 1605; 32; 1575; 1606; 1587; 1575; 1606; 1740];
    [1583; 1575; 1605; 1662; 1586; 1588; 1705; 1740];
    [1575; 1602; 1578; 1589; 1575; 1583];
    [1705; 1588; 1575; 1608; 1585; 1586; 1740];
    [1605; 1606; 1575; 1576; 1593; 32; 1591; 1576; 1740; 1593; 1740] ].

Definition college_trust (n : pystr) : pyval :=
  first_match (fun lst => py_in n lst) lst_college.

Definition trust (env : Env) (n : pystr) : pyval :=
  first_match (fun char => py_in n char) (engineering_fields env).

(** ** dtool/schemas.py: the request payloads *)

Module Student.
Record t := {
  STID : Z;
  FName : pystr;
  LName : pystr;
  Father : pystr;
  Birth : pystr;
  IDS : pystr;
  BornCity : pystr;
  Address : pystr;
  PostalCode : Z;
  CPhone : pystr;
  HPhone : pystr;
  Department : pystr;
  Major : pystr;
  Married : pystr;
  ID : Z;
  SCourseIDs : option (list Z);   (* list[int] | None *)
  LIDs : option (list Z)          (* list[int] | None *)
}.
End Student.

Module Lesson.
Record t := {
  CID : Z;
  CName : pystr;
  Department : pystr;
  Credit : pystr
}.
End Lesson.

Module Master.
Record t := {
  LID : Z;
  FName : pystr;
  LName : pystr;
  ID : Z;
  Department : pystr;
  Major : pystr;
  Birth : pystr;
  BornCity : pystr;
  Address : pystr;
  PostalCode : pystr;
  CPhone : pystr;
  HPhone : pystr;
  LCourseIDs : option (list Z)    (* list[int] | None *)
}.
End Master.

(** In the update payloads every field is [Optional] with default
    [None]. A field is either not set by the request (outer [None]), set
    to [null] (inner [None]) or set to a value. *)

Module UpdateStudent.
Record t := {
  FName : option (option pystr);
  LName : option (option pystr);
  Father : option (option pystr);
  Birth : option (option pystr);
  IDS : option (option pystr);
  BornCity : option (option pystr);
  Address : option (option pystr);
  PostalCode : option (option Z);
  CPhone : option (option pystr);
  HPhone : option (option pystr);
  Department : option (option pystr);
  Major : option (option pystr);
  Married : option (option pystr);
  ID : option (option Z);
  SCourseIDs : option (list Z);   (* required: list[int] | None *)
  LIDs : option (list Z)          (* required: list[int] | None *)
}.
End UpdateStudent.

Module UpdateLesson.
Record t := {
  CName : option (option pystr);
  Department : option (option pystr);
  Credit : option (option pystr)
}.
End UpdateLesson.

Module UpdateMaster.
Record t := {
  FName : option (option pystr);
  LName : option (option pystr);
  ID : option (option Z);
  Department : option (option pystr);
  Major : option (option pystr);
  Birth : option (option pystr);
  BornCity : option (option pystr);
  Address : option (option pystr);
  PostalCode : option (option pystr);
  CPhone : option (option pystr);
  HPhone : option (option pystr);
  LCourseIDs : option (option (list Z))
}.
End UpdateMaster.

Definition of_list_opt (o : option (list Z)) : pyval :=
  match o with
  | Some l => VList l
  | None => VNone
  end.

(** [model_dump()]: the payload as a dictionary of its fields. *)
Definition student_dump (x : Student.t) : gmap string pyval :=
  list_to_map
    [ ("STID", VInt (Student.STID x)); ("FName", VStr (Student.FName x));
      ("LName", VStr (Student.LName x)); ("Father", VStr (Student.Father x));
      ("Birth", VStr (Student.Birth x)); ("IDS", VStr (Student.IDS x));
      ("BornCity", VStr (Student.BornCity x));
      ("Address", VStr (Student.Address x));
      ("PostalCode", VInt (Student.PostalCode x));
      ("CPhone", VStr (Student.CPhone x)); ("HPhone", VStr (Student.HPhone x));
      ("Department", VStr (Student.Department x));
      ("Major", VStr (Student.Major x)); ("Married", VStr (Student.Married x));
      ("ID", VInt (Student.ID x));
      ("SCourseIDs", of_list_opt (Student.SCourseIDs x));
      ("LIDs", of_list_opt (Student.LIDs x)) ].

Definition lesson_dump (x : Lesson.t) : gmap string pyval :=
  list_to_map
    [ ("CID", VInt (Lesson.CID x)); ("CName", VStr (Lesson.CName x));
      ("Department", VStr (Lesson.Department x));
      ("Credit", VStr (Lesson.Credit x)) ].

Definition master_dump (x : Master.t) : gmap string pyval :=
  list_to_map
    [ ("LID", VInt (Master.LID x)); ("FName", VStr (Master.FName x));
      ("LName", VStr (Master.LName x)); ("ID", VInt (Master.ID x));
      ("Department", VStr (Master.Department x));
      ("Major", VStr (Master.Major x)); ("Birth", VStr (Master.Birth x));
      ("BornCity", VStr (Master.BornCity x));
      ("Address", VStr (Master.Address x));
      ("PostalCode", VStr (Master.PostalCode x));
      ("CPhone", VStr (Master.CPhone x)); ("HPhone", VStr (Master.HPhone x));
      ("LCourseIDs", of_list_opt (Master.LCourseIDs x)) ].

Definition of_opt {T : Type} (inj : T -> pyval) (v : option T) : pyval :=
  match v with
  | Some x => inj x
  | None => VNone
  end.

(** One field of [model_dump(exclude_unset=True)]: present only if set. *)
Definition dump_field {T : Type} (key : string) (inj : T -> pyval)
    (f : option (option T)) (d : gmap string pyval) : gmap string pyval :=
  match f with
  | None => d
  | Some v => <[key := of_opt inj v]> d
  end.

Definition student_update_dump (x : UpdateStudent.t) : gmap string pyval :=
  dump_field "FName" VStr (UpdateStudent.FName x)
  (dump_field "LName" VStr (UpdateStudent.LName x)
  (dump_field "Father" VStr (UpdateStudent.Father x)
  (dump_field "Birth" VStr (UpdateStudent.Birth x)
  (dump_field "IDS" VStr (UpdateStudent.IDS x)
  (dump_field "BornCity" VStr (UpdateStudent.BornCity x)
  (dump_field "Address" VStr (UpdateStudent.Address x)
  (dump_field "PostalCode" VInt (UpdateStudent.PostalCode x)
  (dump_field "CPhone" VStr (UpdateStudent.CPhone x)
  (dump_field "HPhone" VStr (UpdateStudent.HPhone x)
  (dump_field "Department" VStr (UpdateStudent.Department x)
  (dump_field "Major" VStr (UpdateStudent.Major x)
  (dump_field "Married" VStr (UpdateStudent.Married x)
  (dump_field "ID" VInt (UpdateStudent.ID x)
  (<["SCourseIDs" := of_list_opt (UpdateStudent.SCourseIDs x)]>
  (<["LIDs" := of_list_opt (UpdateStudent.LIDs x)]> ∅))))))))))))))).

Definition lesson_update_dump (x : UpdateLesson.t) : gmap string pyval :=
  dump_field "CName" VStr (UpdateLesson.CName x)
  (dump_field "Department" VStr (UpdateLesson.Department x)
  (dump_field "Credit" VStr (UpdateLesson.Credit x) ∅)).

Definition master_update_dump (x : UpdateMaster.t) : gmap string pyval :=
  dump_field "FName" VStr (UpdateMaster.FName x)
  (dump_field "LName" VStr (UpdateMaster.LName x)
  (dump_field "ID" VInt (UpdateMaster.ID x)
  (dump_field "Department" VStr (UpdateMaster.Department x)
  (dump_field "Major" VStr (UpdateMaster.Major x)
  (dump_field "Birth" VStr (UpdateMaster.Birth x)
  (dump_field "BornCity" VStr (UpdateMaster.BornCity x)
  (dump_field "Address" VStr (UpdateMaster.Address x)
  (dump_field "PostalCode" VStr (UpdateMaster.PostalCode x)
  (dump_field "CPhone" VStr (UpdateMaster.CPhone x)
  (dump_field "HPhone" VStr (UpdateMaster.HPhone x)
  (dump_field "LCourseIDs" VList (UpdateMaster.LCourseIDs x) ∅))))))))))).

(** ** dtool/model.py: the tables

    Every column is declared with its type and [nullable=False]; the
    first column of a table is its primary key. *)

Module model.

Inductive sqltype :=
| BigInteger
| String (n : nat)
| PickleType.

Definition Student : list (string * sqltype) :=
  [ ("STID", BigInteger); ("FName", String 50); ("LName", String 10);
    ("Father", String 10); ("Birth", String 20); ("IDS", String 20);
    ("BornCity", String 45); ("Address", String 100); ("PostalCode", BigInteger);
    ("CPhone", String 20); ("HPhone", String 20); ("Department", String 45);
    ("Major", String 45); ("Married", String 10); ("ID", BigInteger);
    ("SCourseIDs", PickleType); ("LIDs", PickleType) ].

Definition Lesson : list (string * sqltype) :=
  [ ("CID", BigInteger); ("CName", String 25); ("Department", String 20);
    ("Credit", String 20) ].

Definition Master : list (string * sqltype) :=
  [ ("LID", BigInteger); ("FName", String 20); ("LName", String 20);
    ("ID", BigInteger); ("Department", String 20); ("Major", String 20);
    ("Birth", String 20); ("BornCity", String 20); ("Address", String 100);
    ("PostalCode", String 20); ("CPhone", String 20); ("HPhone", String 20);
    ("LCourseIDs", PickleType) ].

End model.

(** ** db.py: the database

    The engine is a MySQL server, taken in its default (strict) SQL
    mode and with a character set that holds the code points of the
    strings. A statement that writes [NULL] to a column declared
    [nullable=False] is refused with [IntegrityError]; one that writes
    a string of more characters than its [String(n)] column holds, or
    an integer outside the 64 bits of a [BigInteger] column, is refused
    with [DataError]. A [PickleType] column takes any object; the
    size of the pickle is not limited here. The payload schemas give
    every column a value of its own Python type; a value of another
    type is refused here. *)
Definition refused (c : model.sqltype) (value : option pyval) : option error :=
  match value with
  | None | Some VNone => Some IntegrityError
  | Some v =>
      match c, v with
      | model.PickleType, _ => None
      | model.String n, VStr s => if (length s <=? n)%nat then None else Some DataError
      | model.BigInteger, VInt z =>
          if (- 2 ^ 63 <=? z) && (z <? 2 ^ 63) then None else Some DataError
      | _, _ => Some DataError
      end
  end.

(** The statement that a flush sends writes the columns in [changed];
    the first value that is refused ends it. *)
Fixpoint write (cols : list (string * model.sqltype)) (changed : string -> bool)
    (obj : gmap string pyval) : res unit :=
  match cols with
  | [] => Ok tt
  | (key, c) :: cols =>
      match (if changed key then refused c (obj !! key) else None) with
      | Some e => Raise e
      | None => write cols changed obj
      end
  end.

(** [INSERT]: every column is written; an attribute that the object
    does not have is written as [NULL]. *)
Definition insert_row (cols : list (string * model.sqltype))
    (obj : gmap string pyval) : res unit :=
  write cols (fun _ => true) obj.

(** [UPDATE]: the columns whose attribute differs from the loaded one
    are written. *)
Definition update_row (cols : list (string * model.sqltype))
    (loaded obj : gmap string pyval) : res unit :=
  write cols (fun key => bool_decide (obj !! key <> loaded !! key)) obj.

(** A row is an object with one attribute per column; a table maps the
    primary key to its row. *)

Record DB := {
  students : gmap Z (gmap string pyval);
  masters : gmap Z (gmap string pyval);
  lessons : gmap Z (gmap string pyval)
}.

Definition empty_db : DB := {| students := ∅; masters := ∅; lessons := ∅ |}.

Definition set_students (db : DB) (t : gmap Z (gmap string pyval)) : DB :=
  {| students := t; masters := masters db; lessons := lessons db |}.
Definition set_masters (db : DB) (t : gmap Z (gmap string pyval)) : DB :=
  {| students := students db; masters := t; lessons := lessons db |}.
Definition set_lessons (db : DB) (t : gmap Z (gmap string pyval)) : DB :=
  {| students := students db; masters := masters db; lessons := t |}.

(** ** dtool/crud.py *)

Module crud.

Definition not_found (msg : string) : exn :=
  HTTPException 400 (DetailStr (u msg)).

(** [db.add(obj); db.commit(); db.refresh(obj)]. The commit inserts
    the row; the values are stored into their columns, and then the row
    into the table, which refuses a primary key that is taken. The
    handlers call the create functions only for a fresh primary key. *)
Definition create_student (db : DB) (student : Student.t)
  : res (gmap string pyval * DB) :=
  let db_student := student_dump student in
  _ ← insert_row model.Student db_student;
  match students db !! Student.STID student with
  | Some _ => Raise IntegrityError
  | None => Ok (db_student,
                set_students db (<[Student.STID student := db_student]> (students db)))
  end.

Definition create_master (db : DB) (master : Master.t)
  : res (gmap string pyval * DB) :=
  let db_master := master_dump master in
  _ ← insert_row model.Master db_master;
  match masters db !! Master.LID master with
  | Some _ => Raise IntegrityError
  | None => Ok (db_master,
                set_masters db (<[Master.LID master := db_master]> (masters db)))
  end.

Definition create_lesson (db : DB) (lesson : Lesson.t)
  : res (gmap string pyval * DB) :=
  let db_lesson := lesson_dump lesson in
  _ ← insert_row model.Lesson db_lesson;
  match lessons db !! Lesson.CID lesson with
  | Some _ => Raise IntegrityError
  | None => Ok (db_lesson,
                set_lessons db (<[Lesson.CID lesson := db_lesson]> (lessons db)))
  end.

Definition get_student (db : DB) (stid : Z) : res (gmap string pyval) :=
  match students db !! stid with
  | None => Raise (not_found "student is not found")
  | Some get_std => Ok get_std
  end.

Definition get_msr (db : DB) (Lid : Z) : res (gmap string pyval) :=
  match masters db !! Lid with
  | None => Raise (not_found "master is not found")
  | Some get_ms => Ok get_ms
  end.

Definition get_lsn (db : DB) (Cid : Z) : res (gmap string pyval) :=
  match lessons db !! Cid with
  | None => Raise (not_found "lesson is not found")
  | Some get_ls => Ok get_ls
  end.

(** The first loop of the update functions: the keys whose value is
    [None] are deleted from the dictionary. *)
Definition drop_none (updated_data : gmap string pyval) : gmap string pyval :=
  filter (fun kv => kv.2 <> VNone) updated_data.

(** [setattr(obj, key, value)], where [obj] is the result of
    [.first()]: a row or [None]. *)
Definition setattr (obj : option (gmap string pyval)) (key : string)
    (value : pyval) : res (option (gmap string pyval)) :=
  match obj with
  | None => Raise AttributeError
  | Some r => Ok (Some (<[key := value]> r))
  end.

(** The second loop: one [setattr] per remaining item. *)
Definition set_all (obj : option (gmap string pyval))
    (updated_data : gmap string pyval) : res (option (gmap string pyval)) :=
  map_fold (fun key value acc => o ← acc; setattr o key value)
           (Ok obj) updated_data.

(** [db.commit()] after the loops: the attributes that were changed on
    the loaded row are written; when the query found no row, nothing
    was loaded and nothing is written. *)
Definition commit (cols : list (string * model.sqltype))
    (loaded obj : option (gmap string pyval)) : res unit :=
  match loaded, obj with
  | Some row, Some r => update_row cols row r
  | _, _ => Ok tt
  end.

(** [db.refresh(obj)]: refreshing [None] is refused by the ORM. *)
Definition refresh (obj : option (gmap string pyval)) : res (gmap string pyval) :=
  match obj with
  | None => Raise UnmappedInstanceError
  | Some r => Ok r
  end.

Definition update_student (db : DB) (stid : Z)
    (updated_data : gmap string pyval) : res (gmap string pyval * DB) :=
  match students db !! stid with
  | None => Raise (not_found "student is not found")
  | Some student =>
      o ← set_all (Some student) (drop_none updated_data);
      _ ← commit model.Student (Some student) o;
      r ← refresh o;
      Ok (r, set_students db (<[stid := r]> (students db)))
  end.

Definition update_master (db : DB) (LID : Z)
    (updated_data : gmap string pyval) : res (gmap string pyval * DB) :=
  let master := masters db !! LID in
  o ← set_all master (drop_none updated_data);
  _ ← commit model.Master master o;
  r ← refresh o;
  Ok (r, set_masters db (<[LID := r]> (masters db))).

Definition update_course (db : DB) (CID : Z)
    (updated_data : gmap string pyval) : res (gmap string pyval * DB) :=
  let course := lessons db !! CID in
  o ← set_all course (drop_none updated_data);
  _ ← commit model.Lesson course o;
  r ← refresh o;
  Ok (r, set_lessons db (<[CID := r]> (lessons db))).

Definition deleted : pystr := u "delete record is succesful".

Definition del_std (db : DB) (stid : Z) : res (pystr * DB) :=
  match students db !! stid with
  | None => Raise (not_found "student is not found")
  | Some _ => Ok (deleted, set_students db (delete stid (students db)))
  end.

Definition del_msr (db : DB) (Lid : Z) : res (pystr * DB) :=
  match masters db !! Lid with
  | None => Raise (not_found "master is not found")
  | Some _ => Ok (deleted, set_masters db (delete Lid (masters db)))
  end.

Definition del_lsn (db : DB) (Cid : Z) : res (pystr * DB) :=
  match lessons db !! Cid with
  | None => Raise (not_found "lesson is not found")
  | Some _ => Ok (deleted, set_lessons db (delete Cid (lessons db)))
  end.

End crud.

(** ** Helpers shared by the request handlers *)

(** [if cond: errors[key] = msg] *)
Definition set_if (cond : bool) (key : string) (msg : pystr)
    (errors : gmap string pystr) : gmap string pystr :=
  if cond then <[key := msg]> errors else errors.

(** [for x in xs], where [xs] may be [None], which is not iterable. *)
Definition py_iter (xs : option (list Z)) : res (list Z) :=
  match xs with
  | Some l => Ok l
  | None => Raise TypeError
  end.

(** The loops over referenced identifiers:
    [if not db.query(...).filter(id == key).first(): errors[key] = f"..."]. *)
Definition check_refs (table : gmap Z (gmap string pyval)) (key : string)
    (what : string) (ids : list Z) (errors : gmap string pystr)
  : gmap string pystr :=
  foldl (fun errors id =>
           match table !! id with
           | None => <[key := u what ++ py_str id ++ u " not found"]> errors
           | Some _ => errors
           end) errors ids.

(** [s[lo:hi]] for non-negative bounds. *)
Definition slice (lo hi : nat) (s : pystr) : pystr := take (hi - lo) (drop lo s).

Definition validation_error (errors : gmap string pystr) : exn :=
  HTTPException 400 (DetailValidation errors).

(** [^(402|401|400)] *)
Definition stid_year_pattern : regex :=
  RCat RBol (RAlt (RLit (u "402")) (RAlt (RLit (u "401")) (RLit (u "400")))).

(** [...114150..] *)
Definition stid_fixed_pattern : regex :=
  RCat RDot (RCat RDot (RCat RDot (RCat (RLit (u "114150")) (RCat RDot RDot)))).

(** [([\u0627][\u0644][\u0641]|[\u0628-\u06CC])[\/][0-9]{2}\s{1}[0-9]{6}] *)
Definition ids_pattern : regex :=
  RCat (RAlt (RLit [1575; 1604; 1601]) (RSet (in_range 1576 1740)))
       (RCat (RChar 47)
             (RCat (RRep 2 (RSet (in_range 48 57)))
                   (RCat (RRep 1 (RSet is_space))
                         (RRep 6 (RSet (in_range 48 57)))))).

(** [((0?9)|(\+?989))\d{2}\W?\d{3}\W?\d{4}] *)
Definition cphone_pattern (env : Env) : regex :=
  let d := RSet (uni_digit env) in
  let W := RSet (fun c => negb (uni_word env c)) in
  RCat (RAlt (RCat (ROpt (RChar 48)) (RChar 57))
             (RCat (ROpt (RChar 43)) (RLit (u "989"))))
       (RCat (RRep 2 d) (RCat (ROpt W) (RCat (RRep 3 d) (RCat (ROpt W) (RRep 4 d))))).

(** [^(066)] *)
Definition landline_pattern : regex := RCat RBol (RLit (u "066")).

(** [^(09)] *)
Definition mobile_prefix_pattern : regex := RCat RBol (RLit (u "09")).

(** [[1-5]] *)
Definition credit_pattern : regex := RSet (in_range 49 53).

(** The two accepted marital states, as code points. *)
Definition married_yes : pystr := [1605; 1578; 1575; 1607; 1604].
Definition married_no : pystr := [1605; 1580; 1585; 1583].

Definition farsi_msg : pystr :=
  u "All letters must be Farsi or Do not contain special symbols or numbers".

(** A rule of an update handler, ["key" in update_data and cond]: a
    field that the request did not set violates nothing. *)
Definition when_set {T : Type} (f : option (option T))
    (cond : option T -> res bool) : res bool :=
  match f with
  | None => Ok false
  | Some v => cond v
  end.

(** [len], [re.match], [re.findall] and the [in] test of [college_trust]
    raise [TypeError] when they are given [None] instead of a string. *)
Definition on_str {A : Type} (f : pystr -> A) (v : option pystr) : res A :=
  match v with
  | Some s => Ok (f s)
  | None => Raise TypeError
  end.

(** [str(v)], where [str(None)] is the string [None]. *)
Definition str_of {T : Type} (f : T -> pystr) (v : option T) : pystr :=
  match v with
  | Some x => f x
  | None => u "None"
  end.

(** The loops of [is_cities] and [trust] when the candidate is [None]:
    the [in] test of the first element raises [TypeError], and an empty
    reference list falls through to [None]. *)
Definition first_match_none (ob : list pystr) : res pyval :=
  match ob with
  | [] => Ok VNone
  | _ :: _ => Raise TypeError
  end.

Definition not_farsi (v : option pystr) : res bool :=
  r ← on_str check_farsi_name v; Ok (negb (truthy r)).

Definition too_long (n : nat) (v : option pystr) : res bool :=
  l ← on_str length v; Ok (n <? l)%nat.

Definition max_len_msg : pystr := u "The maximum string length must be ten".

Definition no_fields : exn :=
  HTTPException 400 (DetailStr (u "No fields provided for update")).

(** A computation that raises exceptions of the interpreter and of the
    libraries only, no [HTTPException]. *)
Definition only_errors {A : Type} (m : res A) : Prop :=
  forall e, m = Raise e -> exists e', e = Error e'.

(** ** student.py, master.py, course.py: read, create and delete *)

Section handlers.

Variable env : Env.

Definition get_std (db : DB) (STID : Z) : res (gmap string pyval) :=
  crud.get_student db STID.

Definition create_std (db : DB) (users : Student.t)
  : res (gmap string pyval * DB) :=
  let errors : gmap string pystr := ∅ in
  courses ← py_iter (Student.SCourseIDs users);
  let errors := check_refs (lessons db) "Lcourse" "Lesson with ID " courses errors in
  lids ← py_iter (Student.LIDs users);
  let errors := check_refs (masters db) "LID" "Master with ID " lids errors in
  match students db !! Student.STID users with
  | Some _ =>
      Raise (HTTPException 400
               (DetailStr (u "studentID already exists ,studentID must be unique")))
  | None =>
      let stid := py_str (Student.STID users) in
      let errors := set_if (negb (length stid =? 11)%nat) "STID"
                      (u "The number of digits entered is incorrect") errors in
      let errors := set_if (negb (re_match stid_year_pattern stid)) "STID1"
                      (u "The year field is incorrect") errors in
      let errors := set_if (negb (re_match stid_fixed_pattern stid)) "STID2"
                      (u "The fixed field is wrong") errors in
      index_wrong ← (if (length stid =? 11)%nat
                     then v ← py_int (slice 9 11 stid);
                          Ok (negb ((v <=? 99) && (1 <=? v)))
                     else Ok false);
      let errors := set_if index_wrong "STID3" (u "The index part is wrong") errors in
      let errors := set_if (negb (truthy (check_farsi_name (Student.FName users))
                                  && truthy (check_farsi_name (Student.LName users))
                                  && truthy (check_farsi_name (Student.Father users))))
                      "name" farsi_msg errors in
      let errors := set_if ((10 <? length (Student.FName users))%nat
                            || (10 <? length (Student.LName users))%nat
                            || (10 <? length (Student.Father users))%nat)
                      "name2" (u "The maximum string length must be ten") errors in
      birth ← check_shamsi env (VStr (Student.Birth users));
      let errors := set_if (negb (truthy birth)) "Birth"
                      (u "This date is incorrect") errors in
      let errors := set_if (negb (re_match ids_pattern (Student.IDS users))) "IDS"
                      (u "The letter part of the birth certificate was entered incorrectly")
                      errors in
      let errors := set_if (negb (truthy (is_cities env (Student.BornCity users))))
                      "BornCity" (u "incorrect province") errors in
      let errors := set_if (100 <? length (Student.Address users))%nat "address"
                      (u "address incorrectly") errors in
      let errors := set_if (negb (truthy (check_farsi_name (Student.Address users))))
                      "address1" (u "address must be farsi") errors in
      let errors := set_if (negb (length (py_str (Student.PostalCode users)) =? 10)%nat)
                      "postal_code" (u "postal code is invalued") errors in
      let errors := set_if (negb (re_match (cphone_pattern env) (Student.CPhone users)))
                      "CPhone"
                      (u "Mobile phone number must be start with 09 and 11 digits")
                      errors in
      let errors := set_if (negb (length (Student.HPhone users) =? 11)%nat)
                      "landline_number" (u "landline number must be 11 digits")
                      errors in
      let errors := set_if (negb (re_findall landline_pattern (Student.HPhone users)))
                      "landline_number" (u "is landline number incorrect ") errors in
      let errors := set_if (negb (truthy (college_trust (Student.Department users))))
                      "name_college" (u "name college is wrong") errors in
      let errors := set_if (negb (truthy (trust env (Student.Major users))))
                      "field_study" (u "field of study is wrong") errors in
      let errors := set_if (negb (bool_decide (Student.Married users = married_yes)
                                  || bool_decide (Student.Married users = married_no)))
                      "marital" (u "is marital status is wrong value") errors in
      code_melli ← validate_national_id (Student.ID users);
      let errors := set_if (negb (truthy code_melli)) "code_melli"
                      (u "code melli is incorrect") errors in
      if bool_decide (errors = ∅) then crud.create_student db users
      else Raise (validation_error errors)
  end.

Definition del_std (db : DB) (STID : Z) : res (pystr * DB) :=
  crud.del_std db STID.

Definition get_msr (db : DB) (LID : Z) : res (gmap string pyval) :=
  crud.get_msr db LID.

Definition master (db : DB) (mr : Master.t) : res (gmap string pyval * DB) :=
  let errors : gmap string pystr := ∅ in
  match masters db !! Master.LID mr with
  | Some _ =>
      Raise (HTTPException 400
               (DetailStr (u "This teacher exists with the number "
                           ++ py_str (Master.LID mr))))
  | None =>
      let errors := set_if (negb (length (py_str (Master.LID mr)) =? 6)%nat) "LID"
                      (u "The number of digits entered is incorrect") errors in
      let errors := set_if (negb (truthy (check_farsi_name (Master.FName mr))))
                      "FName" farsi_msg errors in
      let errors := set_if (negb (truthy (check_farsi_name (Master.LName mr))))
                      "LName" farsi_msg errors in
      let errors := set_if ((10 <? length (Master.FName mr))%nat
                            || (10 <? length (Master.LName mr))%nat)
                      "FName or LName" (u "The maximum string length must be ten")
                      errors in
      code_melli ← validate_national_id (Master.ID mr);
      let errors := set_if (negb (truthy code_melli)) "ID"
                      (u "code melli is incorrect") errors in
      let errors := set_if (negb (truthy (college_trust (Master.Department mr))))
                      "Department" (u "name college is wrong") errors in
      let errors := set_if (negb (truthy (trust env (Master.Major mr))))
                      "Major" (u "field of study is wrong") errors in
      birth ← check_shamsi env (VStr (Master.Birth mr));
      let errors := set_if (negb (truthy birth)) "Birth"
                      (u "This date is incorrect") errors in
      let errors := set_if (negb (truthy (is_cities env (Master.BornCity mr))))
                      "BornCity" (u "incorrect province") errors in
      let errors := set_if (100 <? length (Master.Address mr))%nat "Address"
                      (u "address incorrectly") errors in
      let errors := set_if (negb (length (Master.PostalCode mr) =? 10)%nat)
                      "PostalCode" (u "postal code is invalued") errors in
      let errors := set_if (negb (re_match (cphone_pattern env) (Master.CPhone mr)))
                      "CPhone"
                      (u "Mobile phone number must be start with 09 and 11 digits")
                      errors in
      let errors := set_if (negb (length (Master.HPhone mr) =? 11)%nat) "HPhone"
                      (u "landline number must be 11 digits") errors in
      let errors := set_if (negb (re_findall landline_pattern (Master.HPhone mr)))
                      "landline_number" (u "is landline number incorrect ") errors in
      let errors :=
        (* [if mr.LCourseIDs:] is false for [None] and for the empty list *)
        match Master.LCourseIDs mr with
        | Some ((_ :: _) as courses) =>
            check_refs (lessons db) "LCourseIDs" "Lesson with ID " courses errors
        | _ => errors
        end in
      if bool_decide (errors = ∅) then crud.create_master db mr
      else Raise (validation_error errors)
  end.

Definition del_msr (db : DB) (LID : Z) : res (pystr * DB) :=
  crud.del_msr db LID.

Definition get_csr (db : DB) (CID : Z) : res (gmap string pyval) :=
  crud.get_lsn db CID.

Definition course (db : DB) (ln : Lesson.t) : res (gmap string pyval * DB) :=
  let errors : gmap string pystr := ∅ in
  match lessons db !! Lesson.CID ln with
  | Some _ =>
      Raise (HTTPException 400
               (DetailStr (u "courseID already exists ,courseID must be unique")))
  | None =>
      let errors := set_if (negb (length (py_str (Lesson.CID ln)) =? 5)%nat) "CID"
                      (u "CID must be 5 digits") errors in
      let errors := set_if ((25 <? length (Lesson.CName ln))%nat
                            || negb (truthy (check_farsi_name (Lesson.CName ln))))
                      "CName"
                      (u "The maximum length of the string should be 25 and all characters should be Farsi")
                      errors in
      let errors := set_if (negb (truthy (college_trust (Lesson.Department ln))))
                      "Department" (u "name college is wrong") errors in
      let errors := set_if (negb (re_match credit_pattern (Lesson.Credit ln)))
                      "credit" (u "The number of units must be between 1 and 4")
                      errors in
      if bool_decide (errors = ∅) then crud.create_lesson db ln
      else Raise (validation_error errors)
  end.

Definition del_lsn (db : DB) (CID : Z) : res (pystr * DB) :=
  crud.del_lsn db CID.

(** *** The update handlers *)

Definition not_shamsi (v : option pystr) : res bool :=
  r ← check_shamsi env (of_opt VStr v); Ok (negb (truthy r)).

Definition not_city (v : option pystr) : res bool :=
  r ← match v with
      | Some n => Ok (is_cities env n)
      | None => first_match_none (province env)
      end;
  Ok (negb (truthy r)).

Definition not_college (v : option pystr) : res bool :=
  r ← on_str college_trust v; Ok (negb (truthy r)).

Definition not_major (v : option pystr) : res bool :=
  r ← match v with
      | Some n => Ok (trust env n)
      | None => first_match_none (engineering_fields env)
      end;
  Ok (negb (truthy r)).

(** [str(None)] has four characters, so [None] is rejected at once. *)
Definition not_national_id (v : option Z) : res bool :=
  r ← match v with
      | Some n => validate_national_id n
      | None => Ok (VBool false)
      end;
  Ok (negb (truthy r)).

Definition update_std (db : DB) (STID : Z) (student_update : UpdateStudent.t)
  : res (gmap string pyval * DB) :=
  let update_data := student_update_dump student_update in
  if bool_decide (update_data = ∅) then Raise no_fields
  else
    let errors : gmap string pystr := ∅ in
    b ← when_set (UpdateStudent.FName student_update) not_farsi;
    let errors := set_if b "FName" farsi_msg errors in
    b ← when_set (UpdateStudent.LName student_update) not_farsi;
    let errors := set_if b "LName" farsi_msg errors in
    b ← when_set (UpdateStudent.Father student_update) not_farsi;
    let errors := set_if b "Father" farsi_msg errors in
    b ← when_set (UpdateStudent.FName student_update) (too_long 10);
    let errors := set_if b "FName1" max_len_msg errors in
    b ← when_set (UpdateStudent.LName student_update) (too_long 10);
    let errors := set_if b "LName1" max_len_msg errors in
    b ← when_set (UpdateStudent.Father student_update) (too_long 10);
    let errors := set_if b "Father1" max_len_msg errors in
    b ← when_set (UpdateStudent.Birth student_update) not_shamsi;
    let errors := set_if b "Birth" (u "This date is incorrect") errors in
    b ← when_set (UpdateStudent.IDS student_update)
          (fun v => m ← on_str (re_match ids_pattern) v; Ok (negb m));
    let errors := set_if b "IDS"
                    (u "The letter part of the birth certificate was entered incorrectly")
                    errors in
    b ← when_set (UpdateStudent.BornCity student_update) not_city;
    let errors := set_if b "BornCity" (u "incorrect province") errors in
    b ← when_set (UpdateStudent.Address student_update) (too_long 100);
    let errors := set_if b "address" (u "address incorrectly") errors in
    b ← when_set (UpdateStudent.PostalCode student_update)
          (fun v => Ok (negb (length (str_of py_str v) =? 10)%nat));
    let errors := set_if b "postal_code" (u "postal code is invalued") errors in
    b ← when_set (UpdateStudent.CPhone student_update)
          (fun v => m ← on_str (re_match (cphone_pattern env)) v; Ok (negb m));
    let errors := set_if b "CPhone"
                    (u "Mobile phone number must be start with 09") errors in
    b ← when_set (UpdateStudent.HPhone student_update)
          (fun v => Ok (negb (length (str_of id v) =? 11)%nat));
    let errors := set_if b "HPhone" (u "landline number must be 11 digits") errors in
    b ← when_set (UpdateStudent.HPhone student_update)
          (fun v => m ← on_str (re_findall landline_pattern) v; Ok (negb m));
    let errors := set_if b "HPhone1" (u "is landline number incorrect ") errors in
    b ← when_set (UpdateStudent.Department student_update) not_college;
    let errors := set_if b "Department" (u "name college is wrong") errors in
    b ← when_set (UpdateStudent.Major student_update) not_major;
    let errors := set_if b "Major" (u "field of study is wrong") errors in
    b ← when_set (UpdateStudent.Married student_update)
          (fun v => Ok (negb (bool_decide (v = Some married_yes)
                              || bool_decide (v = Some married_no))));
    let errors := set_if b "Married" (u "is marital status is wrong value") errors in
    b ← when_set (UpdateStudent.ID student_update) not_national_id;
    let errors := set_if b "ID" (u "code melli is incorrect") errors in
    if bool_decide (errors = ∅)
    then
      (* the row that is returned is an object, which is true, so the
         test [if not result] that follows the call never fires *)
      crud.update_student db STID update_data
    else Raise (validation_error errors).

Definition upd_mas (db : DB) (LID : Z) (mr : UpdateMaster.t)
  : res (gmap string pyval * DB) :=
  let errors : gmap string pystr := ∅ in
  match masters db !! LID with
  | None => Raise (HTTPException 404 (DetailStr (u "There is no such master")))
  | Some _ =>
      let update_data := master_update_dump mr in
      if bool_decide (update_data = ∅) then Raise no_fields
      else
        b ← when_set (UpdateMaster.FName mr) not_farsi;
        let errors := set_if b "FName" farsi_msg errors in
        b ← when_set (UpdateMaster.FName mr) (too_long 10);
        let errors := set_if b "FName" max_len_msg errors in
        b ← when_set (UpdateMaster.LName mr) not_farsi;
        let errors := set_if b "LName" farsi_msg errors in
        b ← when_set (UpdateMaster.LName mr) (too_long 10);
        let errors := set_if b "LName" max_len_msg errors in
        b ← when_set (UpdateMaster.ID mr) not_national_id;
        let errors := set_if b "ID" (u "code melli is incorrect") errors in
        b ← when_set (UpdateMaster.Department mr) not_college;
        let errors := set_if b "Department" (u "name college is wrong") errors in
        b ← when_set (UpdateMaster.Major mr) not_major;
        let errors := set_if b "Major" (u "field of study is wrong") errors in
        b ← when_set (UpdateMaster.Birth mr) not_shamsi;
        let errors := set_if b "Birth" (u "This date is incorrect") errors in
        b ← when_set (UpdateMaster.BornCity mr) not_city;
        let errors := set_if b "BornCity" (u "incorrect province") errors in
        b ← when_set (UpdateMaster.Address mr) (too_long 100);
        let errors := set_if b "address" (u "address incorrectly") errors in
        b ← when_set (UpdateMaster.PostalCode mr)
              (fun v => Ok (negb (length (str_of id v) =? 10)%nat));
        let errors := set_if b "PostalCode" (u "postal code is invalued") errors in
        b ← when_set (UpdateMaster.CPhone mr)
              (fun v => Ok (negb (length (str_of id v) =? 11)%nat));
        let errors := set_if b "CPhone"
                        (u "Mobile phone number must be 11 digits") errors in
        b ← when_set (UpdateMaster.CPhone mr)
              (fun v => m ← on_str (re_findall mobile_prefix_pattern) v; Ok (negb m));
        let errors := set_if b "CPhone1"
                        (u "Mobile phone number must be start with 09") errors in
        b ← when_set (UpdateMaster.HPhone mr)
              (fun v => Ok (negb (length (str_of id v) =? 11)%nat));
        let errors := set_if b "HPhone"
                        (u "landline number must be 11 digits") errors in
        b ← when_set (UpdateMaster.HPhone mr)
              (fun v => m ← on_str (re_findall landline_pattern) v; Ok (negb m));
        let errors := set_if b "HPhone1" (u "is landline number incorrect ") errors in
        let errors :=
          (* [mr.LCourseIDs] is [None] when the field is not set *)
          match UpdateMaster.LCourseIDs mr with
          | Some (Some ((_ :: _) as courses)) =>
              check_refs (lessons db) "LCourseIDs" "Lesson with ID " courses errors
          | _ => errors
          end in
        if bool_decide (errors = ∅) then crud.update_master db LID update_data
        else Raise (validation_error errors)
  end.

Definition upt_cour (db : DB) (CID : Z) (ln : UpdateLesson.t)
  : res (gmap string pyval * DB) :=
  match lessons db !! CID with
  | None => Raise (HTTPException 400 (DetailStr (u "CID is not found")))
  | Some _ =>
      let errors : gmap string pystr := ∅ in
      let update_data := lesson_update_dump ln in
      b ← when_set (UpdateLesson.CName ln)
            (fun v => l ← on_str length v;
                      if (25 <? l)%nat then Ok true else not_farsi v);
      let errors := set_if b "CName"
                      (u "The maximum length of the string should be 25 and all characters should be Farsi")
                      errors in
      b ← when_set (UpdateLesson.Department ln) not_college;
      let errors := set_if b "Department" (u "name college is wrong") errors in
      b ← when_set (UpdateLesson.Credit ln)
            (fun v => m ← on_str (re_match credit_pattern) v; Ok (negb m));
      let errors := set_if b "credit"
                      (u "The number of units must be between 1 and 4") errors in
      if bool_decide (errors = ∅) then crud.update_course db CID update_data
      else Raise (validation_error errors)
  end.

End handlers.

(** ** Sequences of write operations *)

Inductive op :=
| CreateStudent (users : Student.t)
| CreateMaster (mr : Master.t)
| CreateLesson (ln : Lesson.t)
| UpdateStudent (STID : Z) (student_update : UpdateStudent.t)
| UpdateMaster (LID : Z) (mr : UpdateMaster.t)
| UpdateLesson (CID : Z) (ln : UpdateLesson.t)
| DeleteStudent (STID : Z)
| DeleteMaster (LID : Z)
| DeleteLesson (CID : Z).

(** The store after a request: a request that fails writes nothing. *)
Definition after {A : Type} (db : DB) (r : res (A * DB)) : DB :=
  match r with
  | Ok (_, db') => db'
  | Raise _ => db
  end.

Definition step (env : Env) (db : DB) (o : op) : DB :=
  match o with
  | CreateStudent users => after db (create_std env db users)
  | CreateMaster mr => after db (master env db mr)
  | CreateLesson ln => after db (course db ln)
  | UpdateStudent STID student_update => after db (update_std env db STID student_update)
  | UpdateMaster LID mr => after db (upd_mas env db LID mr)
  | UpdateLesson CID ln => after db (upt_cour db CID ln)
  | DeleteStudent STID => after db (del_std db STID)
  | DeleteMaster LID => after db (del_msr db LID)
  | DeleteLesson CID => after db (del_lsn db CID)
  end.

Definition run (env : Env) (ops : list op) (db : DB) : DB :=
  foldl (step env) db ops.

(** Every identifier of a stored list attribute is a key of the table. *)
Definition refs_in (table : gmap Z (gmap string pyval)) (attr : option pyval) : Prop :=
  match attr with
  | Some (VList ids) => Forall (fun id => is_Some (table !! id)) ids
  | _ => True
  end.

(** The referential invariant of the Student rows. *)
Definition referential_integrity (db : DB) : Prop :=
  forall stid student,
    students db !! stid = Some student ->
    refs_in (lessons db) (student !! "SCourseIDs")
    /\ refs_in (masters db) (student !! "LIDs").

(** The identifiers of a list that a request gives are keys of the
    table; a list that is not given names nothing. *)
Definition ids_exist (table : gmap Z (gmap string pyval)) (ids : option (list Z)) : Prop :=
  match ids with
  | Some l => Forall (fun id => is_Some (table !! id)) l
  | None => True
  end.

(** The row names [id] in its list attribute [attr]. *)
Definition names (attr : string) (id : Z) (row : gmap string pyval) : bool :=
  match row !! attr with
  | Some (VList ids) => bool_decide (id ∈ ids)
  | _ => false
  end.

(** No stored Student names [id] in its list attribute [attr]. *)
Definition unreferenced (attr : string) (id : Z) (db : DB) : Prop :=
  map_Forall (fun _ student => names attr id student = false) (students db).

(** The condition under which an operation keeps the references of the
    store it is applied to: a Student update that succeeds gives only
    lists whose identifiers exist, and a Lesson or Master that is
    deleted is named by no stored Student. The other operations have
    no condition. *)
Definition keeps_references (env : Env) (db : DB) (o : op) : Prop :=
  match o with
  | UpdateStudent STID student_update =>
      (exists r, update_std env db STID student_update = Ok r) ->
      ids_exist (lessons db) (UpdateStudent.SCourseIDs student_update)
      /\ ids_exist (masters db) (UpdateStudent.LIDs student_update)
  | DeleteLesson CID => unreferenced "SCourseIDs" CID db
  | DeleteMaster LID => unreferenced "LIDs" LID db
  | _ => True
  end.

(** Every operation of a sequence meets the condition on the store it
    is applied to. *)
Fixpoint all_keep_references (env : Env) (ops : list op) (db : DB) : Prop :=
  match ops with
  | [] => True
  | o :: ops => keeps_references env db o /\ all_keep_references env ops (step env db o)
  end.

(** ** The rules as the specification words them *)

(** The national identifier rule: the input is read as ten digits, left
    padded with zeros; the first nine are weighted 10 down to 2, and the
    remainder of the sum modulo 11 gives the expected last digit. *)
Definition padded_digit (n : Z) (i : Z) : Z := (n / 10 ^ (9 - i)) `mod` 10.

Definition national_id_rule (n : Z) : bool :=
  let total := padded_digit n 0 * 10 + padded_digit n 1 * 9 + padded_digit n 2 * 8
               + padded_digit n 3 * 7 + padded_digit n 4 * 6 + padded_digit n 5 * 5
               + padded_digit n 6 * 4 + padded_digit n 7 * 3 + padded_digit n 8 * 2 in
  let remainder := total `mod` 11 in
  if remainder <? 2 then padded_digit n 9 =? remainder
  else padded_digit n 9 =? 11 - remainder.

(** Eight to ten decimal digits. *)
Definition national_id_spec (n : Z) : bool :=
  (10 ^ 7 <=? n) && (n <? 10 ^ 10) && national_id_rule n.

(** The outcome of a validator as the condition of a rule: a rule is
    violated when the validator returns a false value. *)
Definition fails (r : res pyval) : bool :=
  match r with
  | Ok v => negb (truthy v)
  | Raise _ => false
  end.

Definition missing (table : gmap Z (gmap string pyval)) (ids : option (list Z)) : bool :=
  existsb (fun id => bool_decide (table !! id = None)) (default [] ids).

(** The rules of Student creation, each with the key under which its
    violation is reported. The Farsi script of the three name fields is
    one rule, and so is their length; the two rules of the landline
    number share a key. *)
Definition student_rules (env : Env) (db : DB) (users : Student.t)
  : list (string * bool) :=
  let stid := py_str (Student.STID users) in
  [ ("Lcourse", missing (lessons db) (Student.SCourseIDs users));
    ("LID", missing (masters db) (Student.LIDs users));
    ("STID", negb (length stid =? 11)%nat);
    ("STID1", negb (re_match stid_year_pattern stid));
    ("STID2", negb (re_match stid_fixed_pattern stid));
    ("STID3", (length stid =? 11)%nat
              && match py_int (slice 9 11 stid) with
                 | Ok v => negb ((v <=? 99) && (1 <=? v))
                 | Raise _ => false
                 end);
    ("name", negb (truthy (check_farsi_name (Student.FName users))
                   && truthy (check_farsi_name (Student.LName users))
                   && truthy (check_farsi_name (Student.Father users))));
    ("name2", (10 <? length (Student.FName users))%nat
              || (10 <? length (Student.LName users))%nat
              || (10 <? length (Student.Father users))%nat);
    ("Birth", fails (check_shamsi env (VStr (Student.Birth users))));
    ("IDS", negb (re_match ids_pattern (Student.IDS users)));
    ("BornCity", negb (truthy (is_cities env (Student.BornCity users))));
    ("address", (100 <? length (Student.Address users))%nat);
    ("address1", negb (truthy (check_farsi_name (Student.Address users))));
    ("postal_code", negb (length (py_str (Student.PostalCode users)) =? 10)%nat);
    ("CPhone", negb (re_match (cphone_pattern env) (Student.CPhone users)));
    ("landline_number", negb (length (Student.HPhone users) =? 11)%nat
                        || negb (re_findall landline_pattern (Student.HPhone users)));
    ("name_college", negb (truthy (college_trust (Student.Department users))));
    ("field_study", negb (truthy (trust env (Student.Major users))));
    ("marital", negb (bool_decide (Student.Married users = married_yes)
                      || bool_decide (Student.Married users = married_no)));
    ("code_melli", fails (validate_national_id (Student.ID users))) ].

(** The rules of Course creation. *)
Definition course_rules (ln : Lesson.t) : list (string * bool) :=
  [ ("CID", negb (length (py_str (Lesson.CID ln)) =? 5)%nat);
    ("CName", (25 <? length (Lesson.CName ln))%nat
              || negb (truthy (check_farsi_name (Lesson.CName ln))));
    ("Department", negb (truthy (college_trust (Lesson.Department ln))));
    ("credit", negb (re_match credit_pattern (Lesson.Credit ln))) ].

Definition is_latin_letter (c : Z) : bool := in_range 65 90 c || in_range 97 122 c.

(** The characters the specification allows in a Farsi name: the
    Arabic/Persian block, the digits 1 to 9 and whitespace. *)
Definition allowed_char (c : Z) : bool :=
  in_range 1536 1791 c || in_range 49 57 c || is_space c.

(** The letters of the Persian alphabet: the Arabic letters
    U+0621..U+063A and U+0641..U+064A, and pe, che, zhe, keheh, gaf and
    Farsi yeh. *)
Definition is_persian_letter (c : Z) : bool :=
  in_range 1569 1594 c || in_range 1601 1610 c
  || (c =? 1662) || (c =? 1670) || (c =? 1688) || (c =? 1705) || (c =? 1711)
  || (c =? 1740).

(** [n] is a contiguous part of [name]. *)
Definition substring (n name : pystr) : Prop :=
  exists pre post, name = pre ++ n ++ post.

(** ** Sample data

    An instance of the external data, and payloads that pass every
    rule under it. *)

Definition tehran : pystr := [1578; 1607; 1585; 1575; 1606].
Definition bargh : pystr := [1576; 1585; 1602].
Definition eqtesad : pystr := [1575; 1602; 1578; 1589; 1575; 1583].
Definition ali : pystr := [1593; 1604; 1740].

Definition sample_env : Env := {|
  iran_provinces := [tehran];
  province := [tehran];
  engineering_fields := [ [1605; 1607; 1606; 1583; 1587; 1740; 32] ++ bargh ];
  jstrptime := fun v => if bool_decide (v = VStr (u "1380/01/01")) then None
                        else Some ValueError;
  uni_digit := fun c => in_range 48 57 c || in_range 1632 1641 c || in_range 1776 1785 c;
  uni_word := fun c => in_range 48 57 c || in_range 65 90 c || in_range 97 122 c
                       || (c =? 95) || is_persian_letter c
                       || in_range 1632 1641 c || in_range 1776 1785 c
|}.

Definition sample_student_with (names : pystr * pystr * pystr)
    (hphone married : pystr) (courses lids : option (list Z)) : Student.t := {|
  Student.STID := 40111415001;
  Student.FName := names.1.1;
  Student.LName := names.1.2;
  Student.Father := names.2;
  Student.Birth := u "1380/01/01";
  Student.IDS := [1575; 1604; 1601] ++ u "/12 123456";
  Student.BornCity := tehran;
  Student.Address := tehran;
  Student.PostalCode := 1234567890;
  Student.CPhone := u "09123456789";
  Student.HPhone := hphone;
  Student.Department := eqtesad;
  Student.Major := bargh;
  Student.Married := married;
  Student.ID := 1234567891;
  Student.SCourseIDs := courses;
  Student.LIDs := lids
|}.

Definition sample_student (names : pystr * pystr * pystr)
    (courses lids : option (list Z)) : Student.t :=
  sample_student_with names (u "06612345678") married_no courses lids.

Definition sample_lesson (credit : pystr) : Lesson.t := {|
  Lesson.CID := 12345;
  Lesson.CName := ali;
  Lesson.Department := eqtesad;
  Lesson.Credit := credit
|}.

(** An update that sets nothing but the list of courses. *)
Definition sample_courses_update (courses : list Z) : UpdateStudent.t := {|
  UpdateStudent.FName := None;
  UpdateStudent.LName := None;
  UpdateStudent.Father := None;
  UpdateStudent.Birth := None;
  UpdateStudent.IDS := None;
  UpdateStudent.BornCity := None;
  UpdateStudent.Address := None;
  UpdateStudent.PostalCode := None;
  UpdateStudent.CPhone := None;
  UpdateStudent.HPhone := None;
  UpdateStudent.Department := None;
  UpdateStudent.Major := None;
  UpdateStudent.Married := None;
  UpdateStudent.ID := None;
  UpdateStudent.SCourseIDs := Some courses;
  UpdateStudent.LIDs := None
|}.

(** An update that sets the first name, to a string or to [null], and
    gives no list. *)
Definition sample_name_update (name : option pystr) : UpdateStudent.t := {|
  UpdateStudent.FName := Some name;
  UpdateStudent.LName := None;
  UpdateStudent.Father := None;
  UpdateStudent.Birth := None;
  UpdateStudent.IDS := None;
  UpdateStudent.BornCity := None;
  UpdateStudent.Address := None;
  UpdateStudent.PostalCode := None;
  UpdateStudent.CPhone := None;
  UpdateStudent.HPhone := None;
  UpdateStudent.Department := None;
  UpdateStudent.Major := None;
  UpdateStudent.Married := None;
  UpdateStudent.ID := None;
  UpdateStudent.SCourseIDs := None;
  UpdateStudent.LIDs := None
|}.

(** An update of a master that sets the first name, to a string or to
    [null], and nothing else. *)
Definition sample_master_name_update (name : option pystr) : UpdateMaster.t := {|
  UpdateMaster.FName := Some name;
  UpdateMaster.LName := None;
  UpdateMaster.ID := None;
  UpdateMaster.Department := None;
  UpdateMaster.Major := None;
  UpdateMaster.Birth := None;
  UpdateMaster.BornCity := None;
  UpdateMaster.Address := None;
  UpdateMaster.PostalCode := None;
  UpdateMaster.CPhone := None;
  UpdateMaster.HPhone := None;
  UpdateMaster.LCourseIDs := None
|}.

(** An update of a course: the name is not set, set to [null] or set to
    a string, and so is the credit. *)
Definition sample_lesson_update (name credit : option (option pystr)) : UpdateLesson.t := {|
  UpdateLesson.CName := name;
  UpdateLesson.Department := None;
  UpdateLesson.Credit := credit
|}.


(** ** Definitions used by the further properties *)

(** A pattern without [$]. *)
Fixpoint open_ended (r : regex) : bool :=
  match r with
  | REol => false
  | RCat r1 r2 | RAlt r1 r2 => open_ended r1 && open_ended r2
  | ROpt r1 | RPlus r1 | RRep _ r1 => open_ended r1
  | REps | RSet _ | RBol => true
  end.

(** The four rules of the student identifier in [create_std], taken
    together: eleven characters, a year prefix, the fixed part and an
    index from 1 to 99. *)
Definition stid_rules_pass (n : Z) : bool :=
  let stid := py_str n in
  (length stid =? 11)%nat
  && re_match stid_year_pattern stid
  && re_match stid_fixed_pattern stid
  && negb ((length stid =? 11)%nat
           && match py_int (slice 9 11 stid) with
              | Ok v => negb ((v <=? 99) && (1 <=? v))
              | Raise _ => false
              end).

(** The identifiers 40011415001 .. 40011415099, and the same for the
    prefixes 401 and 402. *)
Definition accepted_stids : list Z :=
  y ← [0; 1; 2]; ii ← seqZ 1 99; [40011415000 + y * 100000000 + ii].

(** A student update that sets the two lists and no other field. *)
Definition only_lists_update (courses lids : option (list Z)) : UpdateStudent.t := {|
  UpdateStudent.FName := None;
  UpdateStudent.LName := None;
  UpdateStudent.Father := None;
  UpdateStudent.Birth := None;
  UpdateStudent.IDS := None;
  UpdateStudent.BornCity := None;
  UpdateStudent.Address := None;
  UpdateStudent.PostalCode := None;
  UpdateStudent.CPhone := None;
  UpdateStudent.HPhone := None;
  UpdateStudent.Department := None;
  UpdateStudent.Major := None;
  UpdateStudent.Married := None;
  UpdateStudent.ID := None;
  UpdateStudent.SCourseIDs := courses;
  UpdateStudent.LIDs := lids
|}.

(** A master that passes every rule under the sample data, with a
    list of courses. *)
Definition sample_master (courses : option (list Z)) : Master.t := {|
  Master.LID := 123456;
  Master.FName := ali;
  Master.LName := ali;
  Master.ID := 1234567891;
  Master.Department := eqtesad;
  Master.Major := bargh;
  Master.Birth := u "1380/01/01";
  Master.BornCity := tehran;
  Master.Address := tehran;
  Master.PostalCode := u "1234567890";
  Master.CPhone := u "09123456789";
  Master.HPhone := u "06612345678";
  Master.LCourseIDs := courses
|}.

(** The master payload with another list of courses. *)
Definition with_courses (mr : Master.t) (courses : option (list Z)) : Master.t := {|
  Master.LID := Master.LID mr;
  Master.FName := Master.FName mr;
  Master.LName := Master.LName mr;
  Master.ID := Master.ID mr;
  Master.Department := Master.Department mr;
  Master.Major := Master.Major mr;
  Master.Birth := Master.Birth mr;
  Master.BornCity := Master.BornCity mr;
  Master.Address := Master.Address mr;
  Master.PostalCode := Master.PostalCode mr;
  Master.CPhone := Master.CPhone mr;
  Master.HPhone := Master.HPhone mr;
  Master.LCourseIDs := courses
|}.

(** * Properties *)

(** ** Decimal representation *)

Lemma digits_of_length_le fuel : forall n (k : nat),
  0 <= n < 10 ^ Z.of_nat (S k) -> (length (digits_of fuel n) <= S k)%nat.
Proof.
  induction fuel as [|f IH]; intros n k Hn; simpl; [lia|].
  destruct (Z.ltb_spec n 10) as [Hlt|Hge]; simpl; [lia|].
  rewrite length_app; simpl.
  destruct k as [|k'].
  - change (10 ^ Z.of_nat 1) with 10 in Hn. lia.
  - assert (length (digits_of f (n / 10)) <= S k')%nat; [|lia].
    apply IH. split; [apply Z.div_pos; lia|].
    apply Z.div_lt_upper_bound; [lia|].
    replace (Z.of_nat (S (S k'))) with (Z.succ (Z.of_nat (S k'))) in Hn by lia.
    rewrite Z.pow_succ_r in Hn by lia. lia.
Qed.

Lemma digits_of_length_gt fuel : forall n (k : nat),
  10 ^ Z.of_nat k <= n < 2 ^ Z.of_nat fuel -> (k < length (digits_of fuel n))%nat.
Proof.
  induction fuel as [|f IH]; intros n k [Hlo Hhi]; simpl.
  - assert (0 < 10 ^ Z.of_nat k) by (apply Z.pow_pos_nonneg; lia).
    change (2 ^ Z.of_nat 0) with 1 in Hhi. lia.
  - destruct (Z.ltb_spec n 10) as [Hlt|Hge]; simpl.
    + destruct k as [|k']; [lia|].
      assert (10 ^ 1 <= 10 ^ Z.of_nat (S k')) by (apply Z.pow_le_mono_r; lia).
      lia.
    + rewrite length_app; simpl.
      destruct k as [|k']; [lia|].
      assert (k' < length (digits_of f (n / 10)))%nat; [|lia].
      apply IH.
      replace (Z.of_nat (S k')) with (Z.succ (Z.of_nat k')) in Hlo by lia.
      rewrite Z.pow_succ_r in Hlo by lia.
      replace (Z.of_nat (S f)) with (Z.succ (Z.of_nat f)) in Hhi by lia.
      rewrite Z.pow_succ_r in Hhi by lia.
      split.
      * apply Z.div_le_lower_bound; lia.
      * apply Z.div_lt_upper_bound; lia.
Qed.

Lemma digits_of_lookup fuel : forall n (i : nat),
  0 <= n ->
  (i < length (digits_of fuel n))%nat ->
  digits_of fuel n !! i
  = Some (48 + (n / 10 ^ Z.of_nat (length (digits_of fuel n) - 1 - i)) `mod` 10).
Proof.
  induction fuel as [|f IH]; intros n i Hn; simpl; [lia|].
  destruct (Z.ltb_spec n 10) as [Hlt|Hge]; simpl; intros Hi.
  - assert (i = 0)%nat as -> by lia. simpl.
    rewrite Z.div_1_r, Z.mod_small by lia. reflexivity.
  - rewrite length_app in *; simpl in *.
    destruct (decide (i < length (digits_of f (n / 10)))%nat) as [Hl|Hl].
    + rewrite lookup_app_l by lia.
      rewrite IH by (try apply Z.div_pos; lia).
      do 2 f_equal. f_equal.
      replace (Z.of_nat (length (digits_of f (n / 10)) + 1 - 1 - i))
        with (Z.succ (Z.of_nat (length (digits_of f (n / 10)) - 1 - i))) by lia.
      rewrite Z.pow_succ_r by lia.
      rewrite Z.div_div by (try apply Z.pow_pos_nonneg; lia). reflexivity.
    + assert (i = length (digits_of f (n / 10))) as -> by lia.
      rewrite lookup_app_r by lia.
      replace (length (digits_of f (n / 10)) - length (digits_of f (n / 10)))%nat with 0%nat by lia.
      replace (length (digits_of f (n / 10)) + 1 - 1 - length (digits_of f (n / 10)))%nat with 0%nat by lia.
      simpl. rewrite Z.div_1_r. reflexivity.
Qed.

Lemma py_str_nonneg n :
  0 <= n -> py_str n = digits_of (Z.to_nat (Z.log2 n) + 1) n.
Proof.
  intros Hn. unfold py_str. destruct (Z.ltb_spec n 0); [lia|reflexivity].
Qed.

Lemma py_str_fuel n :
  0 <= n -> n < 2 ^ Z.of_nat (Z.to_nat (Z.log2 n) + 1).
Proof.
  intros Hn.
  replace (Z.of_nat (Z.to_nat (Z.log2 n) + 1)) with (Z.succ (Z.log2 n))
    by (pose proof (Z.log2_nonneg n); lia).
  destruct (decide (n = 0)) as [->|]; [reflexivity|].
  apply Z.log2_spec. lia.
Qed.

(** [str(n)] has [k] characters exactly when [n] has [k] decimal digits. *)
Lemma py_str_length n (k : nat) :
  10 ^ Z.of_nat k <= n < 10 ^ Z.of_nat (S k) -> length (py_str n) = S k.
Proof.
  intros [Hlo Hhi].
  assert (0 < 10 ^ Z.of_nat k) by (apply Z.pow_pos_nonneg; lia).
  rewrite py_str_nonneg by lia.
  pose proof (digits_of_length_le (Z.to_nat (Z.log2 n) + 1) n k).
  pose proof (digits_of_length_gt (Z.to_nat (Z.log2 n) + 1) n k).
  pose proof (py_str_fuel n). lia.
Qed.

Lemma py_str_length_small n (k : nat) :
  0 <= n < 10 ^ Z.of_nat (S k) -> (length (py_str n) <= S k)%nat.
Proof.
  intros Hn. rewrite py_str_nonneg by lia. apply digits_of_length_le. lia.
Qed.

Lemma py_str_length_large n (k : nat) :
  10 ^ Z.of_nat k <= n -> (k < length (py_str n))%nat.
Proof.
  intros Hn.
  assert (0 < 10 ^ Z.of_nat k) by (apply Z.pow_pos_nonneg; lia).
  rewrite py_str_nonneg by lia. apply digits_of_length_gt.
  pose proof (py_str_fuel n). lia.
Qed.

Lemma py_str_lookup n (i : nat) :
  0 <= n -> (i < length (py_str n))%nat ->
  py_str n !! i = Some (48 + (n / 10 ^ Z.of_nat (length (py_str n) - 1 - i)) `mod` 10).
Proof.
  intros Hn. rewrite py_str_nonneg by lia. apply digits_of_lookup. lia.
Qed.

(** ** The national identifier *)

Lemma str_mul_zero k : str_mul (u "0") k = replicate (Z.to_nat k) 48.
Proof.
  unfold str_mul. change (u "0") with [48].
  induction (Z.to_nat k) as [|m IH]; simpl; [reflexivity|].
  f_equal. exact IH.
Qed.

Lemma getitem_str_mul_zero k (i : nat) :
  Z.of_nat i < k -> getitem (str_mul (u "0") k) i = Ok [48].
Proof.
  intros Hi. unfold getitem. rewrite str_mul_zero.
  rewrite lookup_replicate_2 by lia. reflexivity.
Qed.

Lemma py_int_digit d : 0 <= d <= 9 -> py_int [48 + d] = Ok d.
Proof.
  intros Hd. unfold py_int, is_ascii_digit. simpl.
  destruct (Z.leb_spec 48 (48 + d)); [|lia].
  destruct (Z.leb_spec (48 + d) 57); [|lia].
  simpl. f_equal. lia.
Qed.

Lemma padded_digit_range n i : 0 <= padded_digit n i <= 9.
Proof.
  unfold padded_digit.
  pose proof (Z.mod_pos_bound (n / 10 ^ (9 - i)) 10). lia.
Qed.

Lemma getitem_py_str_ten n (i : nat) :
  0 <= n -> length (py_str n) = 10%nat -> (i < 10)%nat ->
  getitem (py_str n) i = Ok [48 + padded_digit n (Z.of_nat i)].
Proof.
  intros Hn Hlen Hi. unfold getitem.
  rewrite py_str_lookup by lia. rewrite Hlen. unfold padded_digit.
  replace (Z.of_nat (10 - 1 - i)) with (9 - Z.of_nat i) by lia. reflexivity.
Qed.

(** An input of eight or nine digits is accepted whatever its digits
    are: the string that is checked consists of zeros only. *)
Lemma validate_national_id_short n :
  10 ^ 7 <= n < 10 ^ 9 -> validate_national_id n = Ok (VBool true).
Proof.
  intros Hn.
  assert (length (py_str n) = 8%nat \/ length (py_str n) = 9%nat) as Hlen.
  { destruct (Z.lt_ge_cases n (10 ^ 8)).
    - left. apply (py_str_length n 7). simpl Z.of_nat. lia.
    - right. apply (py_str_length n 8). simpl Z.of_nat. lia. }
  unfold validate_national_id.
  destruct Hlen as [-> | ->].
  - change (Z.of_nat 8) with 8. change ((8 <? 8) || (8 >? 10)) with false.
    change (8 <? 10) with true. cbv iota zeta. cbn [sum_gen seq].
    rewrite !getitem_str_mul_zero by lia. reflexivity.
  - change (Z.of_nat 9) with 9. change ((9 <? 8) || (9 >? 10)) with false.
    change (9 <? 10) with true. cbv iota zeta. cbn [sum_gen seq].
    rewrite !getitem_str_mul_zero by lia. reflexivity.
Qed.

(** On an input of ten digits the function computes the rule. *)
Lemma validate_national_id_ten n :
  10 ^ 9 <= n < 10 ^ 10 -> validate_national_id n = Ok (VBool (national_id_rule n)).
Proof.
  intros Hn.
  assert (length (py_str n) = 10%nat) as Hlen
    by (apply (py_str_length n 9); simpl Z.of_nat; lia).
  unfold validate_national_id. rewrite Hlen.
  change (Z.of_nat 10) with 10. change ((10 <? 8) || (10 >? 10)) with false.
  change (10 <? 10) with false. cbv iota zeta. cbn [sum_gen seq].
  rewrite !getitem_py_str_ten by lia.
  cbn [mbind res_bind].
  rewrite !py_int_digit by apply padded_digit_range.
  cbn [mbind res_bind coefficients lookup list_lookup Z.of_nat Pos.of_succ_nat Pos.succ].
  unfold national_id_rule. rewrite !Z.add_0_l.
  destruct (_ <? 2); reflexivity.
Qed.

(** Fewer than eight or more than ten digits are rejected. *)
Lemma validate_national_id_rejects n :
  0 <= n < 10 ^ 7 \/ 10 ^ 10 <= n -> validate_national_id n = Ok (VBool false).
Proof.
  intros Hn. unfold validate_national_id.
  destruct Hn as [Hn|Hn].
  - pose proof (py_str_length_small n 6) as H. simpl Z.of_nat in H.
    destruct (Z.ltb_spec (Z.of_nat (length (py_str n))) 8); [reflexivity|lia].
  - pose proof (py_str_length_large n 10) as H. simpl Z.of_nat in H.
    destruct (Z.ltb_spec (Z.of_nat (length (py_str n))) 8); [reflexivity|].
    destruct (Z.gtb_spec (Z.of_nat (length (py_str n))) 10); [reflexivity|lia].
Qed.

(** On a non-negative input the function returns a boolean. *)
Lemma validate_national_id_total n :
  0 <= n -> exists b, validate_national_id n = Ok (VBool b).
Proof.
  intros Hn.
  destruct (Z.lt_ge_cases n (10 ^ 7)); [|destruct (Z.lt_ge_cases n (10 ^ 9));
    [|destruct (Z.lt_ge_cases n (10 ^ 10))]].
  - exists false. apply validate_national_id_rejects. lia.
  - exists true. apply validate_national_id_short. lia.
  - eexists. apply validate_national_id_ten. lia.
  - exists false. apply validate_national_id_rejects. lia.
Qed.

(** C1. The specification asks for an input of eight or nine digits to
    be left padded with zeros and checked against the weighted sum. The code
    builds the padded string as ["0" * (10 - len(str(n)) + n)], a run of
    zeros without the digits of [n], so the input 12345678 is accepted
    although its check digit is wrong under the rule. *)
Theorem validate_national_id_short_input :
  validate_national_id 12345678 = Ok (VBool true)
  /\ national_id_spec 12345678 = false.
Proof.
  split.
  - apply validate_national_id_short. lia.
  - vm_compute. reflexivity.
Qed.

(** ** Matching a run of characters of one class *)

Section char_runs.

Variable p : Z -> bool.
Variable s : pystr.

Lemma ends_set_elem (i j : nat) :
  j ∈ ends (RSet p) s i <-> j = S i /\ exists c, s !! i = Some c /\ p c = true.
Proof.
  simpl. destruct (s !! i) as [c|] eqn:Hc; [destruct (p c) eqn:Hp|].
  - rewrite list_elem_of_singleton. split; [intros ->; eauto|tauto].
  - rewrite elem_of_nil. split; [tauto|].
    intros [_ (c' & Hc' & Hp')]. congruence.
  - rewrite elem_of_nil. split; [tauto|].
    intros [_ (c' & Hc' & _)]. discriminate.
Qed.

Lemma plus_loop_set_sound fuel : forall i j,
  j ∈ plus_loop (ends (RSet p) s) fuel i -> (i < j)%nat
  /\ forall k, (i <= k < j)%nat -> exists c, s !! k = Some c /\ p c = true.
Proof.
  induction fuel as [|f IH]; intros i j Hj; simpl in Hj.
  - apply elem_of_nil in Hj. contradiction.
  - apply list_elem_of_bind in Hj as (j1 & Hj & Hj1).
    apply ends_set_elem in Hj1 as [-> Hc].
    destruct (Nat.ltb_spec i (S i)); [|lia].
    apply elem_of_app in Hj as [Hj|Hj].
    + apply IH in Hj as [Hlt Hrun]. split; [lia|].
      intros k Hk. destruct (decide (k = i)) as [->|]; [exact Hc|].
      apply Hrun. lia.
    + apply list_elem_of_singleton in Hj as ->. split; [lia|].
      intros k Hk. assert (k = i) as -> by lia. exact Hc.
Qed.

Lemma plus_loop_set_complete fuel : forall i j,
  (i < j)%nat -> (j - i <= fuel)%nat ->
  (forall k, (i <= k < j)%nat -> exists c, s !! k = Some c /\ p c = true) ->
  j ∈ plus_loop (ends (RSet p) s) fuel i.
Proof.
  induction fuel as [|f IH]; intros i j Hlt Hfuel Hrun; [lia|].
  simpl. apply list_elem_of_bind. exists (S i). split.
  - destruct (Nat.ltb_spec i (S i)); [|lia].
    apply elem_of_app. destruct (decide (j = S i)) as [->|].
    + right. apply list_elem_of_singleton. reflexivity.
    + left. apply IH; [lia|lia|]. intros k Hk. apply Hrun. lia.
  - apply ends_set_elem. split; [reflexivity|]. apply Hrun. lia.
Qed.

End char_runs.

Lemma re_match_elem r s : re_match r s = true <-> exists j, j ∈ ends r s 0%nat.
Proof.
  unfold re_match. destruct (ends r s 0%nat) as [|j l].
  - split; [discriminate|]. intros [j Hj]. apply elem_of_nil in Hj. contradiction.
  - split; [|reflexivity]. intros _. exists j. apply list_elem_of_here.
Qed.

Lemma ends_eol_elem s (i j : nat) :
  j ∈ ends REol s i <->
  j = i /\ (i = length s \/ (S i = length s /\ s !! i = Some 10)).
Proof.
  cbn [ends].
  destruct (Nat.eqb_spec i (length s)) as [He|He]; cbn [orb].
  - rewrite list_elem_of_singleton. tauto.
  - destruct (Nat.eqb_spec (S i) (length s)) as [He'|He']; cbn [andb].
    + destruct (bool_decide_reflect (s !! i = Some 10)).
      * rewrite list_elem_of_singleton. tauto.
      * rewrite elem_of_nil. tauto.
    + rewrite elem_of_nil. tauto.
Qed.

(** The pattern of [check_farsi_name] matches the non-empty strings made
    of characters of its class; the newline that [$] tolerates at the
    end belongs to the class. *)
Lemma farsi_pattern_matches n :
  re_match farsi_pattern n = true
  <-> n <> [] /\ Forall (fun c => farsi_class c = true) n.
Proof.
  rewrite re_match_elem. unfold farsi_pattern. split.
  - intros [j Hj]. cbn [ends] in Hj.
    change (0 =? 0)%nat with true in Hj. cbv iota in Hj.
    apply list_elem_of_bind in Hj as (j0 & Hj & Hj0).
    apply list_elem_of_singleton in Hj0 as ->.
    apply list_elem_of_bind in Hj as (j1 & Hj & Hj1).
    apply plus_loop_set_sound in Hj1 as [Hpos Hrun].
    apply ends_eol_elem in Hj as [-> Hend].
    split.
    + intros ->. simpl in Hend. destruct Hend as [?|[? _]]; lia.
    + apply Forall_lookup. intros k c Hk.
      pose proof (lookup_lt_Some _ _ _ Hk) as Hlen.
      destruct (decide (k < j1)%nat) as [Hlt|Hge].
      * destruct (Hrun k) as (c' & Hc' & Hp); [lia|]. congruence.
      * destruct Hend as [?|[? Hnl]]; [lia|].
        assert (k = j1) as -> by lia.
        assert (c = 10) as -> by congruence. reflexivity.
  - intros [Hne Hall]. exists (length n). cbn [ends].
    change (0 =? 0)%nat with true. cbv iota.
    apply list_elem_of_bind. exists 0%nat. split; [|apply list_elem_of_here].
    apply list_elem_of_bind. exists (length n). split.
    + apply ends_eol_elem. auto.
    + apply plus_loop_set_complete.
      * destruct n; [contradiction|simpl; lia].
      * lia.
      * intros k Hk. destruct (lookup_lt_is_Some_2 n k) as [c Hc]; [lia|].
        exists c. split; [exact Hc|].
        rewrite Forall_lookup in Hall. exact (Hall k c Hc).
Qed.

Lemma check_farsi_name_true n :
  check_farsi_name n = VBool true
  <-> n <> [] /\ Forall (fun c => farsi_class c = true) n.
Proof.
  rewrite <- farsi_pattern_matches. unfold check_farsi_name.
  destruct (re_match farsi_pattern n); split; congruence.
Qed.

Lemma check_farsi_name_bool n :
  check_farsi_name n = VBool true \/ check_farsi_name n = VBool false.
Proof. unfold check_farsi_name. destruct (re_match farsi_pattern n); auto. Qed.

Lemma allowed_char_class c : allowed_char c = farsi_class c.
Proof.
  unfold allowed_char, farsi_class.
  destruct (in_range 1536 1791 c), (in_range 49 57 c), (is_space c); reflexivity.
Qed.

Lemma in_range_spec lo hi c : in_range lo hi c = true <-> lo <= c <= hi.
Proof. unfold in_range. rewrite andb_true_iff, !Z.leb_le. tauto. Qed.

Lemma in_range_out lo hi c : c < lo \/ hi < c -> in_range lo hi c = false.
Proof.
  intros H. destruct (in_range lo hi c) eqn:E; [|reflexivity].
  apply in_range_spec in E. lia.
Qed.

Lemma latin_not_allowed c : is_latin_letter c = true -> allowed_char c = false.
Proof.
  unfold is_latin_letter. rewrite orb_true_iff, !in_range_spec. intros H.
  unfold allowed_char, is_space.
  rewrite !in_range_out by lia.
  rewrite !(proj2 (Z.eqb_neq c _)) by lia. reflexivity.
Qed.

Lemma persian_letter_allowed c : is_persian_letter c = true -> allowed_char c = true.
Proof.
  unfold is_persian_letter. rewrite !orb_true_iff, !in_range_spec, !Z.eqb_eq.
  intros H. unfold allowed_char.
  rewrite (proj2 (in_range_spec 1536 1791 c)) by lia. reflexivity.
Qed.

(** C3. [check_farsi_name] returns false for every string that holds a
    Latin letter or a character outside the allowed set (the
    Arabic/Persian block, the digits 1 to 9, whitespace); it returns
    true for every non-empty string of Persian letters, digits 1 to 9
    and spaces; and it rejects the empty string. *)
Theorem check_farsi_name_spec (n : pystr) :
  (forall c, c ∈ n -> is_latin_letter c = true \/ allowed_char c = false ->
             check_farsi_name n = VBool false)
  /\ (n <> [] ->
      Forall (fun c => is_persian_letter c = true \/ in_range 49 57 c = true \/ c = 32) n ->
      check_farsi_name n = VBool true)
  /\ check_farsi_name [] = VBool false.
Proof.
  split; [|split].
  - intros c Hc Hbad.
    destruct (check_farsi_name_bool n) as [Ht|Hf]; [|exact Hf].
    apply check_farsi_name_true in Ht as [_ Hall].
    rewrite Forall_forall in Hall. specialize (Hall c Hc).
    rewrite <- allowed_char_class in Hall.
    destruct Hbad as [Hl|Hn]; [apply latin_not_allowed in Hl|]; congruence.
  - intros Hne Hall. apply check_farsi_name_true. split; [exact Hne|].
    eapply Forall_impl; [exact Hall|]. intros c Hc. simpl in Hc.
    rewrite <- allowed_char_class.
    destruct Hc as [Hc|[Hc| ->]].
    + apply persian_letter_allowed. exact Hc.
    + unfold allowed_char. rewrite Hc. destruct (in_range 1536 1791 c); reflexivity.
    + reflexivity.
  - reflexivity.
Qed.

Lemma check_farsi_name_spec_witness :
  check_farsi_name (u "Ali") = VBool false /\ check_farsi_name ali = VBool true.
Proof.
  destruct (check_farsi_name_spec (u "Ali")) as (Hbad & _ & _).
  destruct (check_farsi_name_spec ali) as (_ & Hgood & _).
  split.
  - apply (Hbad 65); [apply list_elem_of_here|left; reflexivity].
  - apply Hgood; [discriminate|]. repeat constructor.
Defined.

(** ** The membership validators *)

Lemma is_prefix_spec p : forall s, is_prefix p s = true <-> exists post, s = p ++ post.
Proof.
  induction p as [|a p IH]; intros s; simpl.
  - split; [eauto|reflexivity].
  - destruct s as [|b s].
    + split; [discriminate|]. intros [post H]. discriminate.
    + rewrite andb_true_iff, Z.eqb_eq, IH. split.
      * intros [-> [post ->]]. eauto.
      * intros [post [= -> ->]]. eauto.
Qed.

(** The [in] test of two strings holds exactly for the contiguous
    parts. *)
Lemma py_in_spec sub : forall s, py_in sub s = true <-> substring sub s.
Proof.
  unfold substring. induction s as [|b s IH]; simpl.
  - rewrite orb_false_r, is_prefix_spec. split.
    + intros [post H]. exists [], post. exact H.
    + intros (pre & post & H). destruct pre; simpl in H.
      * eauto.
      * discriminate.
  - rewrite orb_true_iff, is_prefix_spec, IH. split.
    + intros [[post H]|(pre & post & H)].
      * exists [], post. exact H.
      * exists (b :: pre), post. simpl. congruence.
    + intros (pre & post & H). destruct pre as [|b' pre]; simpl in H.
      * left. eauto.
      * right. injection H as -> ->. eauto.
Qed.

Lemma first_match_true test ob :
  first_match test ob = VBool true <-> exists x, x ∈ ob /\ test x = true.
Proof.
  induction ob as [|x ob IH]; simpl.
  - split; [discriminate|]. intros (x & Hx & _). apply elem_of_nil in Hx. contradiction.
  - destruct (test x) eqn:Hx.
    + split; [|reflexivity]. intros _. exists x. split; [apply list_elem_of_here|exact Hx].
    + rewrite IH. split.
      * intros (y & Hy & Ht). exists y. split; [apply list_elem_of_further, Hy|exact Ht].
      * intros (y & Hy & Ht). apply elem_of_cons in Hy as [->|Hy]; [congruence|eauto].
Qed.

(** The loops never return [False]: they fall off the end, which
    returns [None]. *)
Lemma first_match_cases test ob :
  first_match test ob = VBool true \/ first_match test ob = VNone.
Proof.
  induction ob as [|x ob IH]; simpl; [auto|]. destruct (test x); auto.
Qed.

Lemma first_match_not_false test ob : first_match test ob <> VBool false.
Proof. destruct (first_match_cases test ob) as [-> | ->]; discriminate. Qed.

Lemma college_trust_true n :
  college_trust n = VBool true <-> exists name, name ∈ lst_college /\ substring n name.
Proof.
  unfold college_trust. rewrite first_match_true.
  split; intros (name & Hin & H); exists name; (split; [exact Hin|]);
    apply py_in_spec; exact H.
Qed.

(** C2. The specification asks every validator to return a boolean,
    false for an invalid value. The four membership validators end without a
    [return False], so they return [None] on a value that matches
    nothing and never return [False]; their docstrings promise
    [False otherwise]. [validate_national_id] raises on a negative
    number of seven digits. *)
Theorem membership_validators_return_none :
  college_trust (u "abc") = VNone
  /\ (forall env n,
        is_center env n <> VBool false /\ is_cities env n <> VBool false
        /\ college_trust n <> VBool false /\ trust env n <> VBool false)
  /\ validate_national_id (-1234567) = Raise IndexError.
Proof.
  split; [vm_compute; reflexivity|]. split; [|vm_compute; reflexivity].
  intros env n. repeat split; apply first_match_not_false.
Qed.

(** ** The dictionary of errors *)

Lemma lookup_set_if_ne cond key msg errors key' :
  key <> key' -> set_if cond key msg errors !! key' = errors !! key'.
Proof. intros Hne. unfold set_if. destruct cond; [apply lookup_insert_ne, Hne|reflexivity]. Qed.

Lemma lookup_check_refs_ne table key what ids key' : forall errors,
  key <> key' -> check_refs table key what ids errors !! key' = errors !! key'.
Proof.
  unfold check_refs. induction ids as [|id ids IH]; intros errors Hne; simpl; [reflexivity|].
  rewrite IH by exact Hne. destruct (table !! id); [reflexivity|].
  apply lookup_insert_ne, Hne.
Qed.

Lemma set_if_hit key msg errors : set_if true key msg errors !! key = Some msg.
Proof. apply lookup_insert_eq. Qed.


Lemma set_if_nonempty cond key msg errors :
  errors <> ∅ -> set_if cond key msg errors <> ∅.
Proof.
  intros H. unfold set_if. destruct cond; [apply insert_non_empty|exact H].
Qed.

Lemma check_refs_keeps table key what ids key' : forall errors,
  is_Some (errors !! key') -> is_Some (check_refs table key what ids errors !! key').
Proof.
  unfold check_refs. induction ids as [|id ids IH]; intros errors H; simpl; [exact H|].
  apply IH. destruct (table !! id); [exact H|].
  destruct (decide (key = key')) as [->|Hne].
  - rewrite lookup_insert_eq. eauto.
  - rewrite lookup_insert_ne by exact Hne. exact H.
Qed.

Lemma check_refs_nonempty table key what ids : forall errors,
  errors <> ∅ -> check_refs table key what ids errors <> ∅.
Proof.
  unfold check_refs. induction ids as [|id ids IH]; intros errors H; simpl; [exact H|].
  apply IH. destruct (table !! id); [exact H|apply insert_non_empty].
Qed.

(** The loop leaves an error exactly when an identifier is missing. *)
Lemma check_refs_missing table key what ids : forall errors,
  Exists (fun id => table !! id = None) ids ->
  is_Some (check_refs table key what ids errors !! key).
Proof.
  unfold check_refs. induction ids as [|id ids IH]; intros errors H; simpl.
  - apply Exists_nil in H. contradiction.
  - apply Exists_cons in H as [H|H].
    + rewrite H. apply (check_refs_keeps table key what ids key).
      rewrite lookup_insert_eq. eauto.
    + apply IH, H.
Qed.

Lemma check_refs_found table key what ids : forall errors,
  Forall (fun id => is_Some (table !! id)) ids ->
  check_refs table key what ids errors = errors.
Proof.
  unfold check_refs. induction ids as [|id ids IH]; intros errors H; simpl; [reflexivity|].
  apply Forall_cons in H as [[r Hr] H]. rewrite Hr. apply IH, H.
Qed.

Lemma check_refs_empty table key what ids :
  check_refs table key what ids ∅ = ∅ ->
  Forall (fun id => is_Some (table !! id)) ids.
Proof.
  intros H. apply Forall_forall. intros id Hid.
  destruct (table !! id) eqn:Hl; [eauto|].
  assert (is_Some (check_refs table key what ids ∅ !! key)) as [msg Hmsg].
  { apply check_refs_missing. apply Exists_exists. eauto. }
  rewrite H, lookup_empty in Hmsg. discriminate.
Qed.
(** ** Stepping through a handler *)

Ltac run_binds H :=
  repeat match type of H with
         | context [mbind _ ?m] =>
             destruct m; cbn [mbind res_bind] in H; try discriminate H
         end.

Lemma stored_without_errors {A : Type} (errors : gmap string pystr)
    (stored : res A) (r : A) :
  (if bool_decide (errors = ∅) then stored else Raise (validation_error errors)) = Ok r ->
  errors = ∅ /\ stored = Ok r.
Proof. destruct (bool_decide_reflect (errors = ∅)); [auto|discriminate]. Qed.

Ltac split_empty H He := apply stored_without_errors in H as [He H].

(** ** Which exceptions the validators raise *)

Lemma getitem_raises s i e : getitem s i = Raise e -> e = IndexError.
Proof. unfold getitem. destruct (s !! i); [discriminate|]. congruence. Qed.

Lemma py_int_raises s e : py_int s = Raise e -> e = ValueError.
Proof.
  unfold py_int. destruct s; [congruence|].
  destruct (forallb _ _); [discriminate|congruence].
Qed.

Lemma sum_gen_raises f l : forall acc e,
  (forall i e, f i = Raise e -> exists e', e = Error e') ->
  sum_gen f l acc = Raise e -> exists e', e = Error e'.
Proof.
  induction l as [|i l IH]; intros acc e Hf H; simpl in H; [discriminate|].
  destruct (f i) as [v|e0] eqn:Hi; simpl in H.
  - eapply IH; eauto.
  - injection H as <-. eapply Hf, Hi.
Qed.

(** [validate_national_id] raises nothing but the errors of indexing and
    of [int]. *)
Lemma validate_national_id_raises n e :
  validate_national_id n = Raise e -> exists e', e = Error e'.
Proof.
  unfold validate_national_id. destruct (_ || _); [discriminate|].
  generalize (if Z.of_nat (length (py_str n)) <? 10
              then str_mul (u "0") (10 - Z.of_nat (length (py_str n)) + n)
              else py_str n).
  intros n_id. cbv zeta.
  destruct (sum_gen _ _ _) as [total|e0] eqn:Hsum; cbn [mbind res_bind].
  - destruct (getitem n_id 9) as [d|e1] eqn:Hd; cbn [mbind res_bind].
    + destruct (py_int d) as [v|e2] eqn:Hv; cbn [mbind res_bind].
      * destruct (_ <? 2); intros [=].
      * intros [= <-]. apply py_int_raises in Hv as ->. eauto.
    + intros [= <-]. apply getitem_raises in Hd as ->. eauto.
  - intros [= <-]. eapply sum_gen_raises; [|exact Hsum].
    intros i e. cbv beta.
    destruct (getitem n_id i) as [d|e1] eqn:Hd; cbn [mbind res_bind].
    + destruct (py_int d) as [v|e2] eqn:Hv; cbn [mbind res_bind].
      * destruct (coefficients !! i); cbn [mbind res_bind]; [intros [=]|].
        intros [= <-]. eauto.
      * intros [= <-]. apply py_int_raises in Hv as ->. eauto.
    + intros [= <-]. apply getitem_raises in Hd as ->. eauto.
Qed.

Lemma check_shamsi_raises env d e :
  check_shamsi env d = Raise e -> exists e', e = Error e'.
Proof.
  unfold check_shamsi. destruct (jstrptime env d) as [[]|]; intros H;
    try discriminate; injection H as <-; eauto.
Qed.

(** ** What the database refuses *)

Lemma refused_error c value e :
  refused c value = Some e -> e = IntegrityError \/ e = DataError.
Proof.
  unfold refused. destruct value as [[]|], c; try destruct (_ <=? _)%nat;
    try destruct (_ && _); intros [= <-]; auto.
Qed.

Lemma write_raises cols changed obj e :
  write cols changed obj = Raise e -> e = Error IntegrityError \/ e = Error DataError.
Proof.
  induction cols as [|[key c] cols IH]; simpl; [discriminate|].
  destruct (changed key); [|exact IH].
  destruct (refused c (obj !! key)) as [e'|] eqn:He; [|exact IH].
  intros [= <-]. apply refused_error in He as [-> | ->]; auto.
Qed.

(** A statement goes through exactly when none of the values it writes
    is refused. *)
Lemma write_ok cols changed obj :
  write cols changed obj = Ok tt
  <-> Forall (fun kc => changed kc.1 = true -> refused kc.2 (obj !! kc.1) = None) cols.
Proof.
  induction cols as [|[key c] cols IH]; simpl.
  - split; [constructor|reflexivity].
  - rewrite Forall_cons. simpl. destruct (changed key).
    + destruct (refused c (obj !! key)) eqn:He.
      * split; [discriminate|]. intros [H _]. specialize (H eq_refl). discriminate.
      * rewrite IH. tauto.
    + rewrite IH. split; [|tauto]. intros H. split; [discriminate|exact H].
Qed.

(** The create functions raise no [HTTPException]. *)
Lemma create_student_raises db x e :
  crud.create_student db x = Raise e -> exists e', e = Error e'.
Proof.
  unfold crud.create_student, insert_row.
  destruct (write _ _ _) as [[]|e'] eqn:Hw; cbn [mbind res_bind].
  - destruct (students db !! _); [|discriminate]. intros [= <-]. eauto.
  - intros [= <-]. apply write_raises in Hw as [-> | ->]; eauto.
Qed.

Lemma create_master_raises db x e :
  crud.create_master db x = Raise e -> exists e', e = Error e'.
Proof.
  unfold crud.create_master, insert_row.
  destruct (write _ _ _) as [[]|e'] eqn:Hw; cbn [mbind res_bind].
  - destruct (masters db !! _); [|discriminate]. intros [= <-]. eauto.
  - intros [= <-]. apply write_raises in Hw as [-> | ->]; eauto.
Qed.

Lemma create_lesson_raises db x e :
  crud.create_lesson db x = Raise e -> exists e', e = Error e'.
Proof.
  unfold crud.create_lesson, insert_row.
  destruct (write _ _ _) as [[]|e'] eqn:Hw; cbn [mbind res_bind].
  - destruct (lessons db !! _); [|discriminate]. intros [= <-]. eauto.
  - intros [= <-]. apply write_raises in Hw as [-> | ->]; eauto.
Qed.

(** What a create function returns when it succeeds. *)
Lemma create_student_ok db x r db' :
  crud.create_student db x = Ok (r, db') ->
  insert_row model.Student (student_dump x) = Ok tt
  /\ students db !! Student.STID x = None
  /\ r = student_dump x
  /\ db' = set_students db (<[Student.STID x := student_dump x]> (students db)).
Proof.
  unfold crud.create_student.
  destruct (insert_row _ _) as [[]|]; cbn [mbind res_bind]; [|discriminate].
  destruct (students db !! _); [discriminate|]. intros [= <- <-]. auto.
Qed.

Lemma create_master_ok db x r db' :
  crud.create_master db x = Ok (r, db') ->
  insert_row model.Master (master_dump x) = Ok tt
  /\ masters db !! Master.LID x = None
  /\ r = master_dump x
  /\ db' = set_masters db (<[Master.LID x := master_dump x]> (masters db)).
Proof.
  unfold crud.create_master.
  destruct (insert_row _ _) as [[]|]; cbn [mbind res_bind]; [|discriminate].
  destruct (masters db !! _); [discriminate|]. intros [= <- <-]. auto.
Qed.

Lemma create_lesson_ok db x r db' :
  crud.create_lesson db x = Ok (r, db') ->
  insert_row model.Lesson (lesson_dump x) = Ok tt
  /\ lessons db !! Lesson.CID x = None
  /\ r = lesson_dump x
  /\ db' = set_lessons db (<[Lesson.CID x := lesson_dump x]> (lessons db)).
Proof.
  unfold crud.create_lesson.
  destruct (insert_row _ _) as [[]|]; cbn [mbind res_bind]; [|discriminate].
  destruct (lessons db !! _); [discriminate|]. intros [= <- <-]. auto.
Qed.

(** ** The department rule of the create handlers *)

Lemma course_department_rule db ln errors :
  course db ln = Raise (validation_error errors) ->
  errors !! "Department"
  = if truthy (college_trust (Lesson.Department ln)) then None
    else Some (u "name college is wrong").
Proof.
  unfold course. destruct (lessons db !! Lesson.CID ln) eqn:Hl; [discriminate|].
  destruct (bool_decide _).
  - intros H. apply (create_lesson_raises db ln) in H as [? [=]].
  - intros [= <-].
    rewrite lookup_set_if_ne by discriminate.
    destruct (truthy (college_trust (Lesson.Department ln))); simpl.
    + rewrite !lookup_set_if_ne by discriminate. apply lookup_empty.
    + apply set_if_hit.
Qed.

Lemma master_department_rule env db mr errors :
  master env db mr = Raise (validation_error errors) ->
  errors !! "Department"
  = if truthy (college_trust (Master.Department mr)) then None
    else Some (u "name college is wrong").
Proof.
  unfold master. destruct (masters db !! Master.LID mr) eqn:Hl; [discriminate|].
  destruct (validate_national_id (Master.ID mr)) as [code_melli|e] eqn:Hid; simpl.
  2: { intros [= ->]. apply validate_national_id_raises in Hid as [e' He']. discriminate. }
  destruct (check_shamsi env (VStr (Master.Birth mr))) as [birth|e] eqn:Hb; simpl.
  2: { intros [= ->]. apply check_shamsi_raises in Hb as [e' He']. discriminate. }
  destruct (bool_decide _).
  - intros H. apply (create_master_raises db mr) in H as [? [=]].
  - intros [= <-].
    assert (forall errors0 : gmap string pystr,
      match Master.LCourseIDs mr with
      | Some ((_ :: _) as courses) =>
          check_refs (lessons db) "LCourseIDs" "Lesson with ID " courses errors0
      | _ => errors0
      end !! "Department" = errors0 !! "Department") as ->.
    { intros errors0. destruct (Master.LCourseIDs mr) as [[|c cs]|]; try reflexivity.
      apply lookup_check_refs_ne. discriminate. }
    rewrite !(lookup_set_if_ne _ _ _ _ "Department") by discriminate.
    destruct (truthy (college_trust (Master.Department mr))); simpl.
    + rewrite !lookup_set_if_ne by discriminate. apply lookup_empty.
    + apply set_if_hit.
Qed.

(** C10. [college_trust] tests whether the candidate is a part of a
    trusted name, not whether a trusted name occurs in the candidate:
    it accepts exactly the contiguous parts of the trusted names, the
    empty string among them, and rejects a trusted name that is
    followed by more text; a department that is such a part passes the
    department rule of the create handlers. *)
Theorem college_trust_accepts_fragments (n : pystr) :
  (college_trust n = VBool true
   <-> exists name, name ∈ lst_college /\ substring n name)
  /\ truthy (college_trust []) = true
  /\ college_trust (eqtesad ++ u " " ++ eqtesad) = VNone
  /\ ((exists name, name ∈ lst_college /\ substring n name) ->
      (forall db ln errors,
         Lesson.Department ln = n ->
         course db ln = Raise (validation_error errors) ->
         errors !! "Department" = None)
      /\ (forall env db mr errors,
            Master.Department mr = n ->
            master env db mr = Raise (validation_error errors) ->
            errors !! "Department" = None)).
Proof.
  split; [apply college_trust_true|].
  split; [vm_compute; reflexivity|]. split; [vm_compute; reflexivity|].
  intros Hn. apply college_trust_true in Hn. split.
  - intros db ln errors Hd H. apply course_department_rule in H.
    rewrite Hd, Hn in H. exact H.
  - intros env db mr errors Hd H. apply master_department_rule in H.
    rewrite Hd, Hn in H. exact H.
Qed.

Lemma college_trust_accepts_fragments_witness :
  college_trust [1602; 1578] = VBool true
  /\ (forall db ln errors,
        Lesson.Department ln = [1602; 1578] ->
        course db ln = Raise (validation_error errors) ->
        errors !! "Department" = None).
Proof.
  assert (exists name, name ∈ lst_college /\ substring [1602; 1578] name) as H.
  { exists eqtesad. split.
    - unfold lst_college, eqtesad. set_solver.
    - exists [1575], [1589; 1575; 1583]. reflexivity. }
  destruct (college_trust_accepts_fragments [1602; 1578]) as (Hiff & _ & _ & Hrule).
  split.
  - apply Hiff, H.
  - apply Hrule, H.
Defined.
(** ** dtool/crud.py: reading, updating and deleting *)

(** On a row, the second loop overwrites the attributes named by the
    dictionary and leaves the other ones. *)
Lemma set_all_row r updated_data :
  crud.set_all (Some r) updated_data = Ok (Some (updated_data ∪ r)).
Proof.
  unfold crud.set_all.
  apply (map_fold_weak_ind
           (fun (acc : res (option (gmap string pyval))) m => acc = Ok (Some (m ∪ r)))).
  - rewrite (left_id_L ∅ (∪)). reflexivity.
  - intros key value m acc _ ->. simpl. rewrite insert_union_l. reflexivity.
Qed.

(** On [None], the first [setattr] raises. *)
Lemma set_all_none updated_data :
  (updated_data = ∅ -> crud.set_all None updated_data = Ok None)
  /\ (updated_data <> ∅ -> crud.set_all None updated_data = Raise AttributeError).
Proof.
  unfold crud.set_all.
  apply (map_fold_weak_ind
           (fun (acc : res (option (gmap string pyval))) (m : gmap string pyval) =>
              (m = ∅ -> acc = Ok None) /\ (m <> ∅ -> acc = Raise AttributeError))).
  - split; [reflexivity|congruence].
  - intros key value m acc _ [He Hne]. split.
    + intros H. apply insert_non_empty in H. contradiction.
    + intros _. destruct (decide (m = ∅)) as [Hm|Hm].
      * rewrite (He Hm). reflexivity.
      * rewrite (Hne Hm). reflexivity.
Qed.

Lemma drop_none_lookup updated_data key :
  crud.drop_none updated_data !! key
  = match updated_data !! key with
    | Some VNone | None => None
    | Some v => Some v
    end.
Proof.
  unfold crud.drop_none. rewrite map_lookup_filter.
  destruct (updated_data !! key) as [v|]; simpl; [|reflexivity].
  destruct v; reflexivity.
Qed.

Lemma update_row_lookup (updated_data r : gmap string pyval) key :
  (crud.drop_none updated_data ∪ r) !! key
  = match updated_data !! key with
    | Some VNone | None => r !! key
    | Some v => Some v
    end.
Proof.
  rewrite lookup_union, drop_none_lookup.
  destruct (updated_data !! key) as [[]|]; simpl;
    try apply (left_id_L None (∪)); destruct (r !! key); reflexivity.
Qed.

Lemma commit_some cols row r : crud.commit cols (Some row) (Some r) = update_row cols row r.
Proof. reflexivity. Qed.

(** On a row that is found, an update function sets the attributes,
    commits the changed ones and returns the row. *)
Lemma update_student_found db stid student updated_data :
  students db !! stid = Some student ->
  crud.update_student db stid updated_data
  = (_ ← update_row model.Student student (crud.drop_none updated_data ∪ student);
     Ok (crud.drop_none updated_data ∪ student,
         set_students db (<[stid := crud.drop_none updated_data ∪ student]> (students db)))).
Proof.
  intros H. unfold crud.update_student. generalize model.Student. intros cols.
  rewrite H, set_all_row. cbn [mbind res_bind]. rewrite commit_some.
  destruct (update_row _ _ _) as [[]|]; reflexivity.
Qed.

Lemma update_master_found db LID master updated_data :
  masters db !! LID = Some master ->
  crud.update_master db LID updated_data
  = (_ ← update_row model.Master master (crud.drop_none updated_data ∪ master);
     Ok (crud.drop_none updated_data ∪ master,
         set_masters db (<[LID := crud.drop_none updated_data ∪ master]> (masters db)))).
Proof.
  intros H. unfold crud.update_master. generalize model.Master. intros cols.
  rewrite H, set_all_row. cbn [mbind res_bind]. rewrite commit_some.
  destruct (update_row _ _ _) as [[]|]; reflexivity.
Qed.

Lemma update_course_found db CID course updated_data :
  lessons db !! CID = Some course ->
  crud.update_course db CID updated_data
  = (_ ← update_row model.Lesson course (crud.drop_none updated_data ∪ course);
     Ok (crud.drop_none updated_data ∪ course,
         set_lessons db (<[CID := crud.drop_none updated_data ∪ course]> (lessons db)))).
Proof.
  intros H. unfold crud.update_course. generalize model.Lesson. intros cols.
  rewrite H, set_all_row. cbn [mbind res_bind]. rewrite commit_some.
  destruct (update_row _ _ _) as [[]|]; reflexivity.
Qed.

(** [update_master] and [update_course] have no test for a missing
    row: [setattr] or [refresh] fails on [None]. *)
Lemma update_master_missing db LID updated_data :
  masters db !! LID = None ->
  crud.update_master db LID updated_data
  = if decide (crud.drop_none updated_data = ∅) then Raise UnmappedInstanceError
    else Raise AttributeError.
Proof.
  intros H. unfold crud.update_master. rewrite H.
  destruct (set_all_none (crud.drop_none updated_data)) as [He Hne].
  destruct (decide _) as [Hd|Hd]; [rewrite (He Hd)|rewrite (Hne Hd)]; reflexivity.
Qed.

Lemma update_course_missing db CID updated_data :
  lessons db !! CID = None ->
  crud.update_course db CID updated_data
  = if decide (crud.drop_none updated_data = ∅) then Raise UnmappedInstanceError
    else Raise AttributeError.
Proof.
  intros H. unfold crud.update_course. rewrite H.
  destruct (set_all_none (crud.drop_none updated_data)) as [He Hne].
  destruct (decide _) as [Hd|Hd]; [rewrite (He Hd)|rewrite (Hne Hd)]; reflexivity.
Qed.

(** What an update function returns when it succeeds: the row was
    found, and the changed attributes were accepted by their columns. *)
Lemma update_student_ok db stid updated_data r db' :
  crud.update_student db stid updated_data = Ok (r, db') ->
  exists row,
    students db !! stid = Some row
    /\ update_row model.Student row r = Ok tt
    /\ r = crud.drop_none updated_data ∪ row
    /\ db' = set_students db (<[stid := r]> (students db)).
Proof.
  intros H. destruct (students db !! stid) as [row|] eqn:Hrow.
  2: { unfold crud.update_student in H. rewrite Hrow in H. discriminate H. }
  rewrite (update_student_found db stid row) in H by exact Hrow.
  destruct (update_row _ _ _) as [[]|] eqn:Hw; [|discriminate H].
  injection H as <- <-. eauto.
Qed.

Lemma update_master_ok db LID updated_data r db' :
  crud.update_master db LID updated_data = Ok (r, db') ->
  exists row,
    masters db !! LID = Some row
    /\ update_row model.Master row r = Ok tt
    /\ r = crud.drop_none updated_data ∪ row
    /\ db' = set_masters db (<[LID := r]> (masters db)).
Proof.
  intros H. destruct (masters db !! LID) as [row|] eqn:Hrow.
  2: { rewrite (update_master_missing db LID) in H by exact Hrow.
       destruct (decide _); discriminate H. }
  rewrite (update_master_found db LID row) in H by exact Hrow.
  destruct (update_row _ _ _) as [[]|] eqn:Hw; [|discriminate H].
  injection H as <- <-. eauto.
Qed.

Lemma update_course_ok db CID updated_data r db' :
  crud.update_course db CID updated_data = Ok (r, db') ->
  exists row,
    lessons db !! CID = Some row
    /\ update_row model.Lesson row r = Ok tt
    /\ r = crud.drop_none updated_data ∪ row
    /\ db' = set_lessons db (<[CID := r]> (lessons db)).
Proof.
  intros H. destruct (lessons db !! CID) as [row|] eqn:Hrow.
  2: { rewrite (update_course_missing db CID) in H by exact Hrow.
       destruct (decide _); discriminate H. }
  rewrite (update_course_found db CID row) in H by exact Hrow.
  destruct (update_row _ _ _) as [[]|] eqn:Hw; [|discriminate H].
  injection H as <- <-. eauto.
Qed.

(** An update that changes no attribute writes nothing. *)
Lemma update_row_same cols row : update_row cols row row = Ok tt.
Proof.
  unfold update_row. apply write_ok, Forall_forall. intros [key c] _ H.
  apply bool_decide_eq_true in H. contradiction.
Qed.

(** ** The rules of the update handlers *)

Lemma lookup_dump_field_ne {T : Type} key (inj : T -> pyval) f d key' :
  key <> key' -> dump_field key inj f d !! key' = d !! key'.
Proof. intros H. destruct f; simpl; [apply lookup_insert_ne, H|reflexivity]. Qed.

Lemma lookup_dump_field {T : Type} key (inj : T -> pyval) f d :
  dump_field key inj f d !! key
  = match f with
    | Some v => Some (of_opt inj v)
    | None => d !! key
    end.
Proof. destruct f; simpl; [apply lookup_insert_eq|reflexivity]. Qed.

(** The two lists are required fields of the Student update: its
    dictionary is never empty. *)
Lemma student_update_dump_nonempty student_update :
  student_update_dump student_update <> ∅.
Proof.
  intros H.
  assert (student_update_dump student_update !! "LIDs"
          = Some (of_list_opt (UpdateStudent.LIDs student_update))) as Hl.
  { unfold student_update_dump. rewrite !lookup_dump_field_ne by discriminate.
    rewrite lookup_insert_ne by discriminate. apply lookup_insert_eq. }
  rewrite H, lookup_empty in Hl. discriminate.
Qed.

Lemma ok_errors {A : Type} (a : A) : only_errors (Ok a).
Proof. intros e [=]. Qed.

Lemma bind_errors {A B : Type} (m : res A) (k : A -> res B) :
  only_errors m -> (forall a, only_errors (k a)) -> only_errors (m ≫= k).
Proof.
  intros Hm Hk e. destruct m as [a|e0]; cbn [mbind res_bind].
  - apply Hk.
  - intros [= <-]. apply Hm. reflexivity.
Qed.

Lemma on_str_errors {A : Type} (f : pystr -> A) v : only_errors (on_str f v).
Proof. intros e. destruct v; intros [= <-]. eauto. Qed.

Lemma first_match_none_errors ob : only_errors (first_match_none ob).
Proof. intros e. destruct ob; intros [= <-]. eauto. Qed.

Lemma when_set_errors {T : Type} (f : option (option T)) cond :
  (forall v, only_errors (cond v)) -> only_errors (when_set f cond).
Proof. intros H. destruct f; simpl; [apply H|apply ok_errors]. Qed.

Ltac rule_errors :=
  repeat first
    [ apply ok_errors
    | apply on_str_errors
    | apply first_match_none_errors
    | progress (intros e He; apply check_shamsi_raises in He; exact He)
    | progress (intros e He; apply validate_national_id_raises in He; exact He)
    | apply when_set_errors; intros [?|]
    | apply bind_errors; [|intros ?]
    | match goal with |- only_errors (if ?c then _ else _) => destruct c end ].

Lemma student_rule_errors env :
  (forall v, only_errors (not_farsi v))
  /\ (forall n v, only_errors (too_long n v))
  /\ (forall v, only_errors (not_shamsi env v))
  /\ (forall v, only_errors (not_city env v))
  /\ (forall v, only_errors (not_college v))
  /\ (forall v, only_errors (not_major env v))
  /\ (forall v, only_errors (not_national_id v)).
Proof.
  unfold not_farsi, too_long, not_shamsi, not_city, not_college, not_major,
    not_national_id.
  repeat split; intros; try destruct v; rule_errors.
Qed.

(** The rules of [update_std] do not look at the store: a request
    either gets through them and reaches [crud.update_student], or it
    ends in the same exception whatever the store holds, the aggregate
    error of the violated rules or the exception that a rule raised. *)
Lemma update_std_rules env student_update db1 id1 db2 id2 :
  (update_std env db1 id1 student_update
   = crud.update_student db1 id1 (student_update_dump student_update)
   /\ update_std env db2 id2 student_update
      = crud.update_student db2 id2 (student_update_dump student_update))
  \/ exists e,
       update_std env db1 id1 student_update = Raise e
       /\ update_std env db2 id2 student_update = Raise e
       /\ ((exists errors, errors <> ∅ /\ e = validation_error errors)
           \/ exists e', e = Error e').
Proof.
  unfold update_std.
  rewrite bool_decide_eq_false_2 by apply student_update_dump_nonempty.
  destruct (student_rule_errors env) as (Hf & Hl & Hs & Hc & Hg & Hm & Hn).
  repeat match goal with
         | |- context [mbind _ ?m] =>
             let Hr := fresh "Hr" in
             destruct m as [?|?e] eqn:Hr; cbn [mbind res_bind];
             [|right; eexists; split; [reflexivity|split; [reflexivity|right]];
               revert Hr; apply when_set_errors; intros;
               first [apply Hf|apply Hl|apply Hs|apply Hc|apply Hg|apply Hm|apply Hn
                     |rule_errors]]
         end.
  match goal with
  | |- context [bool_decide (?E = ∅)] => destruct (bool_decide_reflect (E = ∅)) as [He|He]
  end.
  - left. split; reflexivity.
  - right. eexists. split; [reflexivity|split; [reflexivity|left]]. eauto.
Qed.

Lemma update_std_reaches env db id student_update r :
  update_std env db id student_update = Ok r ->
  crud.update_student db id (student_update_dump student_update) = Ok r.
Proof.
  intros H.
  destruct (update_std_rules env student_update db id db id) as [[<- _]|(e & He & _)];
    [exact H|congruence].
Qed.

Lemma upd_mas_reaches env db LID mr r :
  upd_mas env db LID mr = Ok r ->
  crud.update_master db LID (master_update_dump mr) = Ok r.
Proof.
  unfold upd_mas. intros H.
  destruct (masters db !! LID) as [row|] eqn:Hrow; [|discriminate H].
  destruct (bool_decide _) in H; [discriminate H|].
  run_binds H. split_empty H He. exact H.
Qed.

Lemma upt_cour_reaches db CID ln r :
  upt_cour db CID ln = Ok r ->
  crud.update_course db CID (lesson_update_dump ln) = Ok r.
Proof.
  unfold upt_cour. intros H.
  destruct (lessons db !! CID) as [row|] eqn:Hrow; [|discriminate H].
  run_binds H. split_empty H He. exact H.
Qed.

(** ** Identifiers that are not stored *)




(** ** Fields that a request sets to null *)

(** In the Course update handler the rules run before the update, and
    the rule of the name calls [len] on the value: a name that is given
    as [None] ends the request with a [TypeError], whatever else the
    payload sets. *)
Lemma upt_cour_null_name db CID row department credit :
  lessons db !! CID = Some row ->
  upt_cour db CID {| UpdateLesson.CName := Some None;
                     UpdateLesson.Department := department;
                     UpdateLesson.Credit := credit |}
  = Raise TypeError.
Proof. intros H. unfold upt_cour. rewrite H. reflexivity. Qed.

(** [crud.update_course] itself deletes the keys whose value is [None]
    from the dictionary before it sets the attributes. *)
Lemma update_course_drops_none db CID row :
  lessons db !! CID = Some row ->
  crud.update_course db CID {[ "CName" := VNone ]} = Ok (row, db).
Proof.
  intros H. rewrite (update_course_found db CID row) by exact H.
  assert (crud.drop_none {[ "CName" := VNone ]} ∪ row = row) as ->.
  { apply map_eq. intros key. rewrite update_row_lookup.
    destruct (decide (key = "CName")) as [->|Hne].
    - rewrite lookup_singleton_eq. reflexivity.
    - rewrite lookup_singleton_ne by congruence. reflexivity. }
  rewrite update_row_same. cbn [mbind res_bind].
  rewrite insert_id by exact H. destruct db; reflexivity.
Qed.

(** C6. The specification asks a field that an update payload sets to
    null to be dropped, as if the payload did not name it.
    [crud.update_course] and [crud.update_student] do drop such a key,
    but the handlers run their rules on the payload first, and the
    rules of the names call [len] and [re.match] on the value: the
    request [{"CName": null}] on a stored course ends in a [TypeError],
    and so does [{"CName": null, "Credit": "2"}], which without the
    name succeeds and sets the credit; an update of a Student or of a
    Master with a null first name ends in a [TypeError] as well. *)
Theorem update_null_field_raises :
  let db := set_lessons empty_db {[ 12345 := lesson_dump (sample_lesson (u "3")) ]} in
  let dbs := set_students empty_db
               {[ 40111415001
                  := student_dump (sample_student (ali, ali, ali) (Some []) (Some [])) ]} in
  let dbm := set_masters empty_db {[ 123456 := master_dump (sample_master (Some [])) ]} in
  upt_cour db 12345 (sample_lesson_update (Some None) None) = Raise TypeError
  /\ upt_cour db 12345 (sample_lesson_update (Some None) (Some (Some (u "2"))))
     = Raise TypeError
  /\ (exists r db',
        upt_cour db 12345 (sample_lesson_update None (Some (Some (u "2")))) = Ok (r, db')
        /\ lessons db' !! 12345 = Some r
        /\ r !! "Credit" = Some (VStr (u "2"))
        /\ r !! "CName" = Some (VStr ali))
  /\ update_std sample_env dbs 40111415001 (sample_name_update None) = Raise TypeError
  /\ upd_mas sample_env dbm 123456 (sample_master_name_update None) = Raise TypeError.
Proof.
  cbv zeta. split; [|split; [|split; [|split]]].
  - apply (upt_cour_null_name _ _ (lesson_dump (sample_lesson (u "3")))), lookup_singleton_eq.
  - apply (upt_cour_null_name _ _ (lesson_dump (sample_lesson (u "3")))), lookup_singleton_eq.
  - exists (lesson_dump (sample_lesson (u "2"))),
           (set_lessons empty_db {[ 12345 := lesson_dump (sample_lesson (u "2")) ]}).
    repeat split; vm_compute; reflexivity.
  - vm_compute. reflexivity.
  - vm_compute. reflexivity.
Qed.

(** ** Course credit *)

(** The credit rule looks at the first character only. *)
Lemma credit_pattern_matches s :
  re_match credit_pattern s = true
  <-> exists c rest, s = c :: rest /\ 49 <= c <= 53.
Proof.
  unfold re_match, credit_pattern. cbn [ends].
  destruct s as [|c rest]; simpl.
  - split; [discriminate|]. intros (c & rest & H & _). discriminate.
  - destruct (in_range 49 53 c) eqn:Hc.
    + apply in_range_spec in Hc. split; [eauto|reflexivity].
    + split; [discriminate|]. intros (c' & rest' & [= <- <-] & H).
      apply in_range_spec in H. congruence.
Qed.

(** C9. The specification takes the range of the credit count from the
    error message of the rule, 1 to 4. The pattern of the rule is [[1-5]] and
    is matched against the start of the string only: a course of 5
    units is created, and a credit of 57 passes the rule. *)
Theorem course_credit_five :
  (exists r db',
     course empty_db (sample_lesson (u "5")) = Ok (r, db')
     /\ lessons db' !! 12345 = Some r
     /\ r !! "Credit" = Some (VStr (u "5")))
  /\ re_match credit_pattern (u "57") = true.
Proof.
  split; [|vm_compute; reflexivity].
  exists (lesson_dump (sample_lesson (u "5"))),
         (set_lessons empty_db {[ 12345 := lesson_dump (sample_lesson (u "5")) ]}).
  repeat split; vm_compute; reflexivity.
Qed.

(** ** Duplicate identifiers *)




Lemma create_std_null_list env db users :
  Student.SCourseIDs users = None \/ Student.LIDs users = None ->
  create_std env db users = Raise TypeError.
Proof.
  intros [H|H]; unfold create_std; rewrite H; [reflexivity|].
  destruct (Student.SCourseIDs users); reflexivity.
Qed.

(** C5. The specification asks a create request with a taken identifier
    to fail at once with the duplicate error. [master] and [course] test the
    identifier first. [create_std] first iterates over [SCourseIDs] and
    [LIDs], which the schema allows to be [None], without the guard that
    [master] has: on a taken identifier and a null list the request ends
    in a [TypeError], not in the duplicate error. *)
Theorem create_std_duplicate_null_list :
  let db := set_students empty_db
              {[ 40111415001 := student_dump (sample_student (ali, ali, ali) (Some []) (Some [])) ]} in
  is_Some (students db !! 40111415001)
  /\ create_std sample_env db (sample_student (ali, ali, ali) None (Some []))
     = Raise TypeError.
Proof.
  split.
  - eexists. apply lookup_singleton_eq.
  - apply create_std_null_list. left. reflexivity.
Qed.
(** ** Aggregate errors of the create handlers *)

Lemma digits_of_digits fuel : forall n,
  0 <= n -> Forall (fun c => is_ascii_digit c = true) (digits_of fuel n).
Proof.
  induction fuel as [|f IH]; intros n Hn; simpl; [constructor|].
  assert (forall d, 0 <= d <= 9 -> is_ascii_digit (48 + d) = true) as Hd.
  { intros d Hd. unfold is_ascii_digit. apply andb_true_iff.
    rewrite !Z.leb_le. lia. }
  destruct (Z.ltb_spec n 10).
  - repeat constructor. apply Hd. lia.
  - apply Forall_app. split.
    + apply IH. apply Z.div_pos; lia.
    + repeat constructor. apply Hd.
      pose proof (Z.mod_pos_bound n 10). lia.
Qed.

(** After its first character, [str(n)] consists of digits. *)
Lemma py_str_tail_digits n (k : nat) :
  (1 <= k)%nat -> Forall (fun c => is_ascii_digit c = true) (drop k (py_str n)).
Proof.
  intros Hk. unfold py_str. destruct (Z.ltb_spec n 0).
  - destruct k as [|k]; [lia|]. simpl. apply Forall_drop, digits_of_digits. lia.
  - apply Forall_drop, digits_of_digits. lia.
Qed.

Lemma py_int_total s :
  s <> [] -> Forall (fun c => is_ascii_digit c = true) s -> exists v, py_int s = Ok v.
Proof.
  intros Hne Hs. unfold py_int. destruct s as [|c s]; [contradiction|].
  assert (forallb is_ascii_digit (c :: s) = true) as ->; [|eauto].
  apply forallb_forall. intros x Hx. rewrite Forall_forall in Hs.
  apply Hs, list_elem_of_In, Hx.
Qed.

(** The index part of a student identifier of eleven characters can
    always be read as a number. *)
Lemma stid_index_total n :
  length (py_str n) = 11%nat -> exists v, py_int (slice 9 11 (py_str n)) = Ok v.
Proof.
  intros Hlen. apply py_int_total.
  - unfold slice. intros H. apply (f_equal length) in H.
    rewrite length_take, length_drop, Hlen in H. simpl in H. lia.
  - unfold slice. apply Forall_take, py_str_tail_digits. lia.
Qed.







(** ** The referential invariant *)

Lemma set_if_empty cond key msg errors : set_if cond key msg errors = ∅ -> errors = ∅.
Proof.
  intros H. destruct (decide (errors = ∅)) as [He|He]; [exact He|].
  apply (set_if_nonempty cond key msg) in He. contradiction.
Qed.

Lemma check_refs_empty_inv table key what ids errors :
  check_refs table key what ids errors = ∅ ->
  errors = ∅ /\ Forall (fun id => is_Some (table !! id)) ids.
Proof.
  intros H. assert (errors = ∅) as ->.
  { destruct (decide (errors = ∅)) as [He|He]; [exact He|].
    apply (check_refs_nonempty table key what ids) in He. contradiction. }
  split; [reflexivity|]. eapply check_refs_empty, H.
Qed.

(** A student is stored only when every identifier of its two lists is
    found in its table. *)
Lemma create_std_ok env db users r db' :
  create_std env db users = Ok (r, db') ->
  exists courses lids,
    Student.SCourseIDs users = Some courses /\ Student.LIDs users = Some lids
    /\ Forall (fun id => is_Some (lessons db !! id)) courses
    /\ Forall (fun id => is_Some (masters db !! id)) lids
    /\ students db !! Student.STID users = None
    /\ db' = set_students db (<[Student.STID users := student_dump users]> (students db)).
Proof.
  unfold create_std. intros H.
  destruct (Student.SCourseIDs users) as [courses|]; [|discriminate H].
  destruct (Student.LIDs users) as [lids|]; [|discriminate H].
  cbn [py_iter mbind res_bind] in H.
  destruct (students db !! Student.STID users) eqn:Hnew; [discriminate H|].
  run_binds H.
  split_empty H He.
  repeat (apply set_if_empty in He).
  apply check_refs_empty_inv in He as [He Hlids].
  apply check_refs_empty_inv in He as [_ Hcourses].
  apply create_student_ok in H as (_ & _ & -> & ->).
  exists courses, lids. auto 10.
Qed.

Lemma master_ok env db mr r db' :
  master env db mr = Ok (r, db') ->
  exists row, db' = set_masters db (<[Master.LID mr := row]> (masters db)).
Proof.
  unfold master. intros H.
  destruct (masters db !! Master.LID mr) eqn:Hnew; [discriminate H|].
  run_binds H. split_empty H He.
  apply create_master_ok in H as (_ & _ & -> & ->). eauto.
Qed.

Lemma course_ok db ln r db' :
  course db ln = Ok (r, db') ->
  exists row, db' = set_lessons db (<[Lesson.CID ln := row]> (lessons db)).
Proof.
  unfold course. intros H.
  destruct (lessons db !! Lesson.CID ln) eqn:Hnew; [discriminate H|].
  split_empty H He.
  apply create_lesson_ok in H as (_ & _ & -> & ->). eauto.
Qed.

Lemma upd_mas_ok env db LID mr r db' :
  upd_mas env db LID mr = Ok (r, db') ->
  exists row, db' = set_masters db (<[LID := row]> (masters db)).
Proof.
  intros H. apply upd_mas_reaches, update_master_ok in H as (row & _ & _ & _ & ->).
  eauto.
Qed.

Lemma upt_cour_ok db CID ln r db' :
  upt_cour db CID ln = Ok (r, db') ->
  exists row, db' = set_lessons db (<[CID := row]> (lessons db)).
Proof.
  intros H. apply upt_cour_reaches, update_course_ok in H as (row & _ & _ & _ & ->).
  eauto.
Qed.

Lemma student_update_dump_lists student_update :
  student_update_dump student_update !! "SCourseIDs"
  = Some (of_list_opt (UpdateStudent.SCourseIDs student_update))
  /\ student_update_dump student_update !! "LIDs"
     = Some (of_list_opt (UpdateStudent.LIDs student_update)).
Proof.
  unfold student_update_dump. rewrite !lookup_dump_field_ne by discriminate. split.
  - apply lookup_insert_eq.
  - rewrite lookup_insert_ne by discriminate. apply lookup_insert_eq.
Qed.

(** A Student update that succeeds stores the lists that it gives and
    keeps the stored list where it gives none. *)
Lemma update_std_ok env db STID student_update r db' :
  update_std env db STID student_update = Ok (r, db') ->
  exists row,
    students db !! STID = Some row
    /\ r !! "SCourseIDs" = match UpdateStudent.SCourseIDs student_update with
                           | Some l => Some (VList l)
                           | None => row !! "SCourseIDs"
                           end
    /\ r !! "LIDs" = match UpdateStudent.LIDs student_update with
                     | Some l => Some (VList l)
                     | None => row !! "LIDs"
                     end
    /\ db' = set_students db (<[STID := r]> (students db)).
Proof.
  intros H. apply update_std_reaches, update_student_ok in H as (row & Hrow & _ & -> & ->).
  exists row. destruct (student_update_dump_lists student_update) as [Hc Hl].
  rewrite !update_row_lookup, Hc, Hl.
  destruct (UpdateStudent.SCourseIDs student_update),
    (UpdateStudent.LIDs student_update); auto.
Qed.

Lemma del_std_ok db STID msg db' :
  del_std db STID = Ok (msg, db') ->
  db' = set_students db (delete STID (students db)).
Proof.
  unfold del_std, crud.del_std. destruct (students db !! STID); [|discriminate].
  intros [= _ <-]. reflexivity.
Qed.

Lemma del_msr_ok db LID msg db' :
  del_msr db LID = Ok (msg, db') ->
  db' = set_masters db (delete LID (masters db)).
Proof.
  unfold del_msr, crud.del_msr. destruct (masters db !! LID); [|discriminate].
  intros [= _ <-]. reflexivity.
Qed.

Lemma del_lsn_ok db CID msg db' :
  del_lsn db CID = Ok (msg, db') ->
  db' = set_lessons db (delete CID (lessons db)).
Proof.
  unfold del_lsn, crud.del_lsn. destruct (lessons db !! CID); [|discriminate].
  intros [= _ <-]. reflexivity.
Qed.

Lemma student_dump_lists users :
  student_dump users !! "SCourseIDs" = Some (of_list_opt (Student.SCourseIDs users))
  /\ student_dump users !! "LIDs" = Some (of_list_opt (Student.LIDs users)).
Proof. split; vm_compute; reflexivity. Qed.

Lemma refs_in_insert table key row attr :
  refs_in table attr -> refs_in (<[key := row]> table) attr.
Proof.
  destruct attr as [[]|]; simpl; try tauto.
  intros H. eapply Forall_impl; [exact H|]. intros id [r Hr].
  destruct (decide (key = id)) as [->|Hne].
  - rewrite lookup_insert_eq. eauto.
  - rewrite lookup_insert_ne by exact Hne. eauto.
Qed.

(** Deleting a row that the list does not name keeps its references. *)
Lemma refs_in_delete table key attr row :
  names attr key row = false ->
  refs_in table (row !! attr) -> refs_in (delete key table) (row !! attr).
Proof.
  unfold names. destruct (row !! attr) as [[]|]; simpl; try tauto.
  intros Hkey H. apply bool_decide_eq_false in Hkey.
  apply Forall_forall. intros id Hid.
  rewrite Forall_forall in H. specialize (H id Hid).
  rewrite lookup_delete_ne; [exact H|]. intros ->. contradiction.
Qed.

Lemma refs_in_given table ids stored :
  ids_exist table ids ->
  refs_in table stored ->
  refs_in table match ids with
                | Some l => Some (VList l)
                | None => stored
                end.
Proof. destruct ids; simpl; auto. Qed.

(** An operation that meets the condition keeps the invariant. *)
Lemma step_keeps_integrity env db o :
  keeps_references env db o ->
  referential_integrity db -> referential_integrity (step env db o).
Proof.
  intros Ho Hdb. destruct o; simpl in *.
  - destruct (create_std env db users) as [[r db']|e] eqn:H; [|exact Hdb].
    apply create_std_ok in H as (courses & lids & Hc & Hl & Hcs & Hls & _ & ->).
    intros stid student Hst. simpl in *.
    destruct (decide (stid = Student.STID users)) as [->|Hne].
    + rewrite lookup_insert_eq in Hst. injection Hst as <-.
      destruct (student_dump_lists users) as [-> ->]. rewrite Hc, Hl.
      split; assumption.
    + rewrite lookup_insert_ne in Hst by congruence. apply (Hdb stid student Hst).
  - destruct (master env db mr) as [[r db']|e] eqn:H; [|exact Hdb].
    apply master_ok in H as (row & ->).
    intros stid student Hst. simpl in *. destruct (Hdb stid student Hst).
    split; [assumption|]. apply refs_in_insert. assumption.
  - destruct (course db ln) as [[r db']|e] eqn:H; [|exact Hdb].
    apply course_ok in H as (row & ->).
    intros stid student Hst. simpl in *. destruct (Hdb stid student Hst).
    split; [|assumption]. apply refs_in_insert. assumption.
  - destruct (update_std env db STID student_update) as [[r db']|e] eqn:H; [|exact Hdb].
    destruct Ho as [Hcs Hls]; [eauto|].
    apply update_std_ok in H as (row & Hrow & Hc & Hl & ->).
    destruct (Hdb STID row Hrow) as [Hrc Hrl].
    intros stid student Hst. simpl in *.
    destruct (decide (stid = STID)) as [->|Hne].
    + rewrite lookup_insert_eq in Hst. injection Hst as <-. rewrite Hc, Hl.
      split; apply refs_in_given; assumption.
    + rewrite lookup_insert_ne in Hst by congruence. apply (Hdb stid student Hst).
  - destruct (upd_mas env db LID mr) as [[r db']|e] eqn:H; [|exact Hdb].
    apply upd_mas_ok in H as (row & ->).
    intros stid student Hst. simpl in *. destruct (Hdb stid student Hst).
    split; [assumption|]. apply refs_in_insert. assumption.
  - destruct (upt_cour db CID ln) as [[r db']|e] eqn:H; [|exact Hdb].
    apply upt_cour_ok in H as (row & ->).
    intros stid student Hst. simpl in *. destruct (Hdb stid student Hst).
    split; [|assumption]. apply refs_in_insert. assumption.
  - destruct (del_std db STID) as [[r db']|e] eqn:H; [|exact Hdb].
    apply del_std_ok in H as ->.
    intros stid student Hst. simpl in *.
    apply lookup_delete_Some in Hst as [_ Hst]. apply (Hdb stid student Hst).
  - destruct (del_msr db LID) as [[r db']|e] eqn:H; [|exact Hdb].
    apply del_msr_ok in H as ->.
    intros stid student Hst. simpl in *. destruct (Hdb stid student Hst).
    split; [assumption|]. apply refs_in_delete; [|assumption].
    apply (Ho stid student Hst).
  - destruct (del_lsn db CID) as [[r db']|e] eqn:H; [|exact Hdb].
    apply del_lsn_ok in H as ->.
    intros stid student Hst. simpl in *. destruct (Hdb stid student Hst).
    split; [|assumption]. apply refs_in_delete; [|assumption].
    apply (Ho stid student Hst).
Qed.

(** A row whose references are found after the deletion of [key] does
    not name [key]. *)
Lemma refs_in_unnamed table key attr row :
  table !! key = None ->
  refs_in table (row !! attr) -> names attr key row = false.
Proof.
  unfold names. destruct (row !! attr) as [[]|]; simpl; try reflexivity.
  intros Hkey H. apply bool_decide_eq_false. intros Hin.
  rewrite Forall_forall in H. destruct (H key Hin) as [r Hr]. congruence.
Qed.

(** An operation after which the invariant holds meets the condition. *)
Lemma step_integrity_needs env db o :
  referential_integrity (step env db o) -> keeps_references env db o.
Proof.
  destruct o; simpl; try tauto.
  - intros Hdb [[r db'] H]. rewrite H in Hdb. simpl in Hdb.
    apply update_std_ok in H as (row & Hrow & Hc & Hl & ->).
    destruct (Hdb STID r) as [Hrc Hrl]; [apply lookup_insert_eq|].
    rewrite Hc in Hrc. rewrite Hl in Hrl. simpl in *.
    destruct (UpdateStudent.SCourseIDs student_update),
      (UpdateStudent.LIDs student_update); simpl; auto.
  - intros Hdb stid student Hst.
    destruct (del_msr db LID) as [[r db']|e] eqn:H; simpl in Hdb.
    + apply del_msr_ok in H as ->. destruct (Hdb stid student Hst) as [_ Hl].
      simpl in Hl. eapply refs_in_unnamed; [|exact Hl]. apply lookup_delete_eq.
    + destruct (Hdb stid student Hst) as [_ Hl].
      eapply refs_in_unnamed; [|exact Hl].
      unfold del_msr, crud.del_msr in H. destruct (masters db !! LID); [discriminate|].
      reflexivity.
  - intros Hdb stid student Hst.
    destruct (del_lsn db CID) as [[r db']|e] eqn:H; simpl in Hdb.
    + apply del_lsn_ok in H as ->. destruct (Hdb stid student Hst) as [Hc _].
      simpl in Hc. eapply refs_in_unnamed; [|exact Hc]. apply lookup_delete_eq.
    + destruct (Hdb stid student Hst) as [Hc _].
      eapply refs_in_unnamed; [|exact Hc].
      unfold del_lsn, crud.del_lsn in H. destruct (lessons db !! CID); [discriminate|].
      reflexivity.
Qed.

Lemma run_keeps_integrity env ops : forall db,
  all_keep_references env ops db ->
  referential_integrity db -> referential_integrity (run env ops db).
Proof.
  unfold run. induction ops as [|o ops IH]; intros db Hops Hdb; simpl; [exact Hdb|].
  destruct Hops as [Ho Hops].
  apply IH; [exact Hops|]. apply step_keeps_integrity; assumption.
Qed.

(** C8, as amended. After every sequence of create, update and delete
    operations, from the empty store, in which every Student update
    that succeeds gives only lists whose identifiers exist at that time
    and every Lesson or Master that is deleted is named by no stored
    Student at that time, every stored Student refers to existing
    Lesson and Master rows; and one more operation keeps this exactly
    when it meets the same condition. *)
Theorem references_kept (env : Env) (ops : list op) :
  all_keep_references env ops empty_db ->
  referential_integrity (run env ops empty_db)
  /\ forall o,
       referential_integrity (step env (run env ops empty_db) o)
       <-> keeps_references env (run env ops empty_db) o.
Proof.
  intros Hops.
  assert (referential_integrity (run env ops empty_db)) as Hdb.
  { apply run_keeps_integrity; [exact Hops|].
    intros stid student H. cbn [empty_db students] in H.
    rewrite lookup_empty in H. discriminate. }
  split; [exact Hdb|]. intros o. split.
  - apply step_integrity_needs.
  - intros Ho. apply step_keeps_integrity; assumption.
Qed.

Lemma references_kept_witness :
  let ops := [ CreateLesson (sample_lesson (u "3"));
               CreateMaster (sample_master (Some [12345]));
               CreateStudent (sample_student (ali, ali, ali) (Some []) (Some []));
               UpdateStudent 40111415001 (sample_courses_update [12345]);
               DeleteMaster 123456 ] in
  (exists student,
     students (run sample_env ops empty_db) !! 40111415001 = Some student
     /\ student !! "SCourseIDs" = Some (VList [12345]))
  /\ referential_integrity (run sample_env ops empty_db)
  /\ ~ referential_integrity
         (step sample_env (run sample_env ops empty_db) (DeleteLesson 12345)).
Proof.
  cbv zeta.
  assert (students
            (run sample_env
               [ CreateLesson (sample_lesson (u "3"));
                 CreateMaster (sample_master (Some [12345]));
                 CreateStudent (sample_student (ali, ali, ali) (Some []) (Some []));
                 UpdateStudent 40111415001 (sample_courses_update [12345]);
                 DeleteMaster 123456 ] empty_db) !! 40111415001
          = Some (<["SCourseIDs" := VList [12345]]>
                    (student_dump (sample_student (ali, ali, ali) (Some []) (Some [])))))
    as Hstudent.
  { vm_cast_no_check
      (eq_refl (Some (<["SCourseIDs" := VList [12345]]>
                        (student_dump
                           (sample_student (ali, ali, ali) (Some []) (Some [])))))). }
  split; [|match goal with
           | |- _ /\ ~ referential_integrity (step _ ?db ?o) =>
               destruct (references_kept sample_env
                           [ CreateLesson (sample_lesson (u "3"));
                             CreateMaster (sample_master (Some [12345]));
                             CreateStudent
                               (sample_student (ali, ali, ali) (Some []) (Some []));
                             UpdateStudent 40111415001 (sample_courses_update [12345]);
                             DeleteMaster 123456 ]) as [Hkept Hnext]
           end].
  - eexists. split; [exact Hstudent|reflexivity].
  - cbn [all_keep_references keeps_references]. repeat split.
    + constructor; [|constructor]. exists (lesson_dump (sample_lesson (u "3"))).
      vm_cast_no_check (eq_refl (Some (lesson_dump (sample_lesson (u "3"))))).
    + unfold unreferenced.
      match goal with |- ?P => apply (bool_decide_unpack P) end.
      vm_cast_no_check I.
  - split; [exact Hkept|]. intros Hbroken.
    apply Hnext in Hbroken. cbn [keeps_references] in Hbroken.
    specialize (Hbroken _ _ Hstudent). discriminate Hbroken.
Defined.

(** C8, counterexample. Under the sample data: a lesson is created, a
    student who takes it is created, and the lesson is deleted; or a
    student is created and then updated with a list of courses that
    names a lesson that does not exist. In both stores the student
    refers to a missing Lesson row. *)
Lemma dangling_references :
  ~ referential_integrity
      (run sample_env
         [ CreateLesson (sample_lesson (u "3"));
           CreateStudent (sample_student (ali, ali, ali) (Some [12345]) (Some []));
           DeleteLesson 12345 ]
         empty_db)
  /\ ~ referential_integrity
         (run sample_env
            [ CreateStudent (sample_student (ali, ali, ali) (Some []) (Some []));
              UpdateStudent 40111415001 (sample_courses_update [99999]) ]
            empty_db).
Proof.
  split; intros H.
  - destruct (H 40111415001
                (student_dump (sample_student (ali, ali, ali) (Some [12345]) (Some []))))
      as [Hc _]; [vm_cast_no_check (eq_refl (Some
        (student_dump (sample_student (ali, ali, ali) (Some [12345]) (Some [])))))|].
    vm_compute in Hc. apply Forall_cons in Hc as [[r Hr] _]. discriminate.
  - destruct (H 40111415001
                (<["SCourseIDs" := VList [99999]]>
                   (student_dump (sample_student (ali, ali, ali) (Some []) (Some [])))))
      as [Hc _]; [vm_cast_no_check (eq_refl (Some
        (<["SCourseIDs" := VList [99999]]>
           (student_dump (sample_student (ali, ali, ali) (Some []) (Some []))))))|].
    vm_compute in Hc. apply Forall_cons in Hc as [[r Hr] _]. discriminate.
Qed.

(** * Further properties of the code *)

(** ** The national identifier, case by case *)

Lemma py_str_neg n : n < 0 -> py_str n = 45 :: py_str (- n).
Proof.
  intros Hn. unfold py_str.
  destruct (Z.ltb_spec n 0); [|lia]. destruct (Z.ltb_spec (- n) 0); [lia|].
  reflexivity.
Qed.

(** X1. On an input of exactly ten digits [validate_national_id] returns
    the verdict of the weighted checksum: the first nine digits weighted
    10 down to 2, the remainder modulo 11 compared with the last
    digit. *)
Theorem national_id_ten_digits (n : Z) :
  10 ^ 9 <= n < 10 ^ 10 ->
  validate_national_id n = Ok (VBool (national_id_rule n)).
Proof. apply validate_national_id_ten. Qed.

Lemma national_id_ten_digits_witness :
  validate_national_id 1234567891 = Ok (VBool (national_id_rule 1234567891)).
Proof. apply national_id_ten_digits. lia. Defined.

(** X2. Every number of eight or nine digits is accepted, whatever its
    digits are. *)
Theorem national_id_short_accepted (n : Z) :
  10 ^ 7 <= n < 10 ^ 9 -> validate_national_id n = Ok (VBool true).
Proof. apply validate_national_id_short. Qed.

Lemma national_id_short_accepted_witness :
  validate_national_id 99999999 = Ok (VBool true).
Proof. apply national_id_short_accepted. lia. Defined.

(** X3. On a number that is not negative the function raises nothing,
    and it returns [False] when the number has fewer than eight or more
    than ten digits. *)
Theorem national_id_nonnegative (n : Z) :
  0 <= n ->
  (exists b, validate_national_id n = Ok (VBool b))
  /\ (n < 10 ^ 7 \/ 10 ^ 10 <= n -> validate_national_id n = Ok (VBool false)).
Proof.
  intros Hn. split.
  - apply validate_national_id_total, Hn.
  - intros H. apply validate_national_id_rejects. lia.
Qed.

Lemma national_id_nonnegative_witness :
  validate_national_id 1234567 = Ok (VBool false)
  /\ validate_national_id 12345678901 = Ok (VBool false).
Proof.
  split.
  - apply (national_id_nonnegative 1234567); lia.
  - apply (national_id_nonnegative 12345678901); lia.
Defined.

(** X4. A negative number is counted with its minus sign. With seven or
    eight digits the padded string is empty and the first index raises
    [IndexError]; with nine digits the sign itself is read as a digit
    and [int] raises [ValueError]; any other negative number is
    rejected with [False]. *)
Theorem national_id_negative (n : Z) :
  n < 0 ->
  (- 10 ^ 8 < n <= - 10 ^ 6 -> validate_national_id n = Raise IndexError)
  /\ (- 10 ^ 9 < n <= - 10 ^ 8 -> validate_national_id n = Raise ValueError)
  /\ (n <= - 10 ^ 9 \/ - 10 ^ 6 < n -> validate_national_id n = Ok (VBool false)).
Proof.
  intros Hn. unfold validate_national_id. rewrite (py_str_neg n Hn).
  cbn [length]. split; [|split].
  - intros H.
    assert (length (py_str (- n)) = 7%nat \/ length (py_str (- n)) = 8%nat) as Hlen.
    { destruct (Z.lt_ge_cases (- n) (10 ^ 7)).
      - left. apply (py_str_length (- n) 6). simpl Z.of_nat. lia.
      - right. apply (py_str_length (- n) 7). simpl Z.of_nat. lia. }
    destruct Hlen as [-> | ->].
    + change (Z.of_nat 8) with 8. change ((8 <? 8) || (8 >? 10)) with false.
      change (8 <? 10) with true. cbv iota zeta.
      rewrite str_mul_zero. replace (Z.to_nat (10 - 8 + n)) with 0%nat by lia.
      reflexivity.
    + change (Z.of_nat 9) with 9. change ((9 <? 8) || (9 >? 10)) with false.
      change (9 <? 10) with true. cbv iota zeta.
      rewrite str_mul_zero. replace (Z.to_nat (10 - 9 + n)) with 0%nat by lia.
      reflexivity.
  - intros H.
    assert (length (py_str (- n)) = 9%nat) as ->
      by (apply (py_str_length (- n) 8); simpl Z.of_nat; lia).
    change (Z.of_nat 10) with 10. change ((10 <? 8) || (10 >? 10)) with false.
    change (10 <? 10) with false. cbv iota zeta. reflexivity.
  - intros [H|H].
    + pose proof (py_str_length_large (- n) 9) as Hl. simpl Z.of_nat in Hl.
      destruct (Z.ltb_spec (Z.of_nat (S (length (py_str (- n))))) 8); [reflexivity|].
      destruct (Z.gtb_spec (Z.of_nat (S (length (py_str (- n))))) 10); [reflexivity|lia].
    + pose proof (py_str_length_small (- n) 5) as Hl. simpl Z.of_nat in Hl.
      destruct (Z.ltb_spec (Z.of_nat (S (length (py_str (- n))))) 8); [reflexivity|lia].
Qed.

Lemma national_id_negative_witness :
  validate_national_id (-12345678) = Raise IndexError
  /\ validate_national_id (-123456789) = Raise ValueError
  /\ validate_national_id (-1234567890) = Ok (VBool false).
Proof.
  destruct (national_id_negative (-12345678)) as (H1 & _ & _); [lia|].
  destruct (national_id_negative (-123456789)) as (_ & H2 & _); [lia|].
  destruct (national_id_negative (-1234567890)) as (_ & _ & H3); [lia|].
  split; [apply H1; lia|]. split; [apply H2; lia|apply H3; lia].
Defined.

(** ** The reference lists *)

Lemma substring_extend (sub s pre post : pystr) :
  substring sub s -> substring sub (pre ++ s ++ post).
Proof.
  intros (a & b & ->). exists (pre ++ a), (b ++ post).
  rewrite <- !app_assoc. reflexivity.
Qed.

Lemma substring_trans (a b c : pystr) : substring a b -> substring b c -> substring a c.
Proof.
  intros (p1 & q1 & ->) (p2 & q2 & ->). exists (p2 ++ p1), (q1 ++ q2).
  rewrite <- !app_assoc. reflexivity.
Qed.

(** X5. [is_center] and [is_cities] return [True] exactly when a name of
    their list occurs inside the candidate, and [None] otherwise; so a
    candidate stays accepted when text is added before or after it, and
    nothing is accepted when the list is empty. *)
Theorem reference_name_inside (env : Env) (n : pystr) :
  (is_cities env n = VBool true
   <-> exists city, city ∈ province env /\ substring city n)
  /\ (is_center env n = VBool true
      <-> exists name, name ∈ iran_provinces env /\ substring name n)
  /\ (is_cities env n = VBool true ->
      forall pre post, is_cities env (pre ++ n ++ post) = VBool true)
  /\ (is_center env n = VBool true ->
      forall pre post, is_center env (pre ++ n ++ post) = VBool true)
  /\ (province env = [] -> is_cities env n = VNone)
  /\ (iran_provinces env = [] -> is_center env n = VNone).
Proof.
  assert (forall ob m, first_match (fun char => py_in char m) ob = VBool true
                       <-> exists x, x ∈ ob /\ substring x m) as Hiff.
  { intros ob m. rewrite first_match_true.
    split; intros (x & Hin & H); exists x; (split; [exact Hin|]);
      apply py_in_spec; exact H. }
  unfold is_cities, is_center. repeat split.
  - apply Hiff.
  - apply Hiff.
  - apply Hiff.
  - apply Hiff.
  - intros H pre post. apply Hiff. apply Hiff in H as (x & Hin & H).
    exists x. split; [exact Hin|]. apply substring_extend, H.
  - intros H pre post. apply Hiff. apply Hiff in H as (x & Hin & H).
    exists x. split; [exact Hin|]. apply substring_extend, H.
  - intros ->. reflexivity.
  - intros ->. reflexivity.
Qed.

Lemma reference_name_inside_witness :
  is_cities sample_env (u "x " ++ tehran ++ u " y") = VBool true.
Proof.
  destruct (reference_name_inside sample_env tehran) as (_ & _ & H & _).
  apply (H (eq_refl : is_cities sample_env tehran = VBool true) (u "x ") (u " y")).
Defined.

(** X6. [trust] returns [True] exactly when the candidate is a
    contiguous part of a name of the list of fields, and [None]
    otherwise: every part of an accepted candidate is accepted, and the
    empty string is accepted as soon as the list is not empty. *)
Theorem trust_accepts_fragments (env : Env) (n : pystr) :
  (trust env n = VBool true
   <-> exists field, field ∈ engineering_fields env /\ substring n field)
  /\ (trust env n = VBool true ->
      forall part, substring part n -> trust env part = VBool true)
  /\ (engineering_fields env <> [] -> trust env [] = VBool true)
  /\ (engineering_fields env = [] -> trust env n = VNone).
Proof.
  assert (forall m, trust env m = VBool true
                    <-> exists x, x ∈ engineering_fields env /\ substring m x) as Hiff.
  { intros m. unfold trust. rewrite first_match_true.
    split; intros (x & Hin & H); exists x; (split; [exact Hin|]);
      apply py_in_spec; exact H. }
  split; [apply Hiff|]. split; [|split].
  - intros H part Hpart. apply Hiff. apply Hiff in H as (x & Hin & H).
    exists x. split; [exact Hin|]. eapply substring_trans; eassumption.
  - intros Hne. apply Hiff. destruct (engineering_fields env) as [|x l]; [contradiction|].
    exists x. split; [apply list_elem_of_here|]. exists [], x. reflexivity.
  - unfold trust. intros ->. reflexivity.
Qed.

Lemma trust_accepts_fragments_witness :
  trust sample_env (u " ") = VBool true /\ trust sample_env [] = VBool true.
Proof.
  destruct (trust_accepts_fragments sample_env []) as (_ & _ & Hempty & _).
  split.
  - destruct (trust_accepts_fragments sample_env
                ([1605; 1607; 1606; 1583; 1587; 1740; 32] ++ bargh)) as (_ & H & _).
    apply H; [reflexivity|]. exists [1605; 1607; 1606; 1583; 1587; 1740], bargh.
    reflexivity.
  - apply Hempty. discriminate.
Defined.

(** ** Patterns that are not anchored at the end *)

Lemma plus_loop_mono (step step' : nat -> list nat) :
  (forall i j, j ∈ step i -> j ∈ step' i) ->
  forall fuel fuel' i j,
    (fuel <= fuel')%nat ->
    j ∈ plus_loop step fuel i -> j ∈ plus_loop step' fuel' i.
Proof.
  intros Hstep. induction fuel as [|f IH]; intros fuel' i j Hle Hj; simpl in Hj.
  - apply elem_of_nil in Hj. contradiction.
  - destruct fuel' as [|f']; [lia|]. simpl.
    apply list_elem_of_bind in Hj as (j1 & Hj & Hj1).
    apply list_elem_of_bind. exists j1. split; [|apply Hstep, Hj1].
    destruct (i <? j1)%nat; [|exact Hj].
    apply elem_of_app in Hj as [Hj|Hj]; apply elem_of_app; [left|right; exact Hj].
    apply IH; [lia|exact Hj].
Qed.

(** A match of a pattern without [$] is still a match when the string
    goes on. *)
Lemma ends_extend r t : open_ended r = true ->
  forall s i j, j ∈ ends r s i -> j ∈ ends r (s ++ t) i.
Proof.
  induction r as [|p| | |r1 IH1 r2 IH2|r1 IH1 r2 IH2|r1 IH1|r1 IH1|n r1 IH1];
    intros Hopen s i j Hj; cbn [open_ended] in Hopen; cbn [ends] in *.
  - exact Hj.
  - destruct (s !! i) as [c|] eqn:Hc; [|apply elem_of_nil in Hj; contradiction].
    rewrite (lookup_app_l_Some _ _ _ _ Hc). exact Hj.
  - exact Hj.
  - discriminate Hopen.
  - apply andb_true_iff in Hopen as [H1 H2].
    apply list_elem_of_bind in Hj as (j1 & Hj & Hj1).
    apply list_elem_of_bind. exists j1. split; [apply IH2|apply IH1]; assumption.
  - apply andb_true_iff in Hopen as [H1 H2].
    apply elem_of_app in Hj as [Hj|Hj]; apply elem_of_app;
      [left; apply IH1|right; apply IH2]; assumption.
  - apply elem_of_app in Hj as [Hj|Hj]; apply elem_of_app;
      [left; apply IH1; assumption|right; exact Hj].
  - apply (plus_loop_mono (ends r1 s) (ends r1 (s ++ t))
             (fun i' j' => IH1 Hopen s i' j') (S (length s))); [|exact Hj].
    rewrite length_app. lia.
  - revert i j Hj. induction n as [|n IHn]; intros i j Hj; simpl in *; [exact Hj|].
    apply list_elem_of_bind in Hj as (j1 & Hj & Hj1).
    apply list_elem_of_bind. exists j1. split; [apply IHn, Hj|apply IH1; assumption].
Qed.

Lemma re_match_extend r s t :
  open_ended r = true -> re_match r s = true -> re_match r (s ++ t) = true.
Proof.
  intros Hopen H. apply re_match_elem in H as [j Hj].
  apply re_match_elem. exists j. apply ends_extend; assumption.
Qed.

(** X7. The patterns of the birth certificate series, of the mobile
    number and of the credit are matched from the start of the value
    and have no [$]: a value that passes still passes when any text is
    appended to it. *)
Theorem unanchored_rules_accept_longer (env : Env) (s t : pystr) :
  (re_match ids_pattern s = true -> re_match ids_pattern (s ++ t) = true)
  /\ (re_match (cphone_pattern env) s = true ->
      re_match (cphone_pattern env) (s ++ t) = true)
  /\ (re_match credit_pattern s = true -> re_match credit_pattern (s ++ t) = true).
Proof. repeat split; apply re_match_extend; reflexivity. Qed.

Lemma unanchored_rules_accept_longer_witness :
  re_match (cphone_pattern sample_env) (u "09123456789" ++ u " or none") = true
  /\ re_match credit_pattern (u "3" ++ u "000") = true.
Proof.
  destruct (unanchored_rules_accept_longer sample_env (u "09123456789") (u " or none"))
    as (_ & Hphone & _).
  destruct (unanchored_rules_accept_longer sample_env (u "3") (u "000"))
    as (_ & _ & Hcredit).
  split; [apply Hphone|apply Hcredit]; reflexivity.
Defined.

(** ** The student identifier *)

Lemma digits_value fuel : forall n,
  0 <= n < 2 ^ Z.of_nat fuel ->
  fold_left (fun acc c => 10 * acc + (c - 48)) (digits_of fuel n) 0 = n.
Proof.
  induction fuel as [|f IH]; intros n [Hlo Hhi]; simpl.
  - change (2 ^ Z.of_nat 0) with 1 in Hhi. lia.
  - destruct (Z.ltb_spec n 10); simpl; [lia|].
    rewrite fold_left_app. simpl. rewrite IH.
    + pose proof (Z.div_mod n 10). lia.
    + replace (Z.of_nat (S f)) with (Z.succ (Z.of_nat f)) in Hhi by lia.
      rewrite Z.pow_succ_r in Hhi by lia.
      split; [apply Z.div_pos; lia|apply Z.div_lt_upper_bound; lia].
Qed.

(** Reading [str(n)] in base ten gives [n] back. *)
Lemma py_str_value n :
  0 <= n -> fold_left (fun acc c => 10 * acc + (c - 48)) (py_str n) 0 = n.
Proof.
  intros Hn. rewrite py_str_nonneg by exact Hn. apply digits_value.
  split; [exact Hn|apply py_str_fuel, Hn].
Qed.

Lemma ends_char_elem a s (i j : nat) :
  j ∈ ends (RChar a) s i <-> j = S i /\ s !! i = Some a.
Proof.
  unfold RChar. rewrite ends_set_elem. split.
  - intros [-> (c & Hc & Heq)]. apply Z.eqb_eq in Heq as ->. auto.
  - intros [-> Hc]. split; [reflexivity|]. exists a. split; [exact Hc|apply Z.eqb_refl].
Qed.

(** A literal matches at a position when the string goes on with it. *)
Lemma ends_lit_elem l : forall s (i j : nat),
  j ∈ ends (RLit l) s i <-> j = (i + length l)%nat /\ exists post, drop i s = l ++ post.
Proof.
  induction l as [|a l IH]; intros s i j; cbn [RLit ends length].
  - rewrite list_elem_of_singleton, Nat.add_0_r. split; [intros ->|intros [-> _]]; eauto.
  - rewrite list_elem_of_bind. split.
    + intros (j1 & Hj & Hj1). apply ends_char_elem in Hj1 as [-> Ha].
      apply IH in Hj as [-> [post Hpost]]. split; [lia|].
      exists post. rewrite (drop_S _ _ _ Ha), Hpost. reflexivity.
    + intros [-> [post Hpost]].
      assert (s !! i = Some a) as Ha.
      { rewrite <- (Nat.add_0_r i), <- lookup_drop, Hpost. reflexivity. }
      exists (S i). split; [|apply ends_char_elem; auto].
      apply IH. split; [lia|]. exists post.
      rewrite (drop_S _ _ _ Ha) in Hpost. injection Hpost as ->. reflexivity.
Qed.

Lemma stid_year_prefix s :
  re_match stid_year_pattern s = true ->
  exists y post, 0 <= y <= 2 /\ s = 52 :: 48 :: (48 + y) :: post.
Proof.
  intros H. apply re_match_elem in H as [j Hj].
  unfold stid_year_pattern in Hj. cbn [ends Nat.eqb] in Hj.
  apply list_elem_of_bind in Hj as (j0 & Hj & Hj0).
  apply list_elem_of_singleton in Hj0 as ->.
  rewrite !elem_of_app, !ends_lit_elem in Hj.
  destruct Hj as [[_ [post H]]|[[_ [post H]]|[_ [post H]]]]; rewrite drop_0 in H;
    [exists 2|exists 1|exists 0]; exists post; (split; [lia|exact H]).
Qed.

Lemma ends_dot_elem s (i j : nat) : j ∈ ends RDot s i -> j = S i.
Proof. unfold RDot. rewrite ends_set_elem. tauto. Qed.

Lemma stid_fixed_part s :
  re_match stid_fixed_pattern s = true ->
  exists post, drop 3 s = 49 :: 49 :: 52 :: 49 :: 53 :: 48 :: post.
Proof.
  intros H. apply re_match_elem in H as [j Hj].
  unfold stid_fixed_pattern in Hj. cbn [ends] in Hj.
  apply list_elem_of_bind in Hj as (j1 & Hj & Hj1). apply ends_dot_elem in Hj1 as ->.
  apply list_elem_of_bind in Hj as (j2 & Hj & Hj2). apply ends_dot_elem in Hj2 as ->.
  apply list_elem_of_bind in Hj as (j3 & Hj & Hj3). apply ends_dot_elem in Hj3 as ->.
  apply list_elem_of_bind in Hj as (j4 & Hj & Hj4).
  apply ends_lit_elem in Hj4 as [_ [post H]]. exists post. exact H.
Qed.

Lemma stid_rules_pass_form n :
  stid_rules_pass n = true ->
  exists y ii, 0 <= y <= 2 /\ 1 <= ii <= 99 /\ n = 40011415000 + y * 100000000 + ii.
Proof.
  unfold stid_rules_pass. intros H.
  apply andb_true_iff in H as [H Hidx].
  apply andb_true_iff in H as [H Hfixed].
  apply andb_true_iff in H as [Hlen Hyear].
  apply Nat.eqb_eq in Hlen. rewrite (proj2 (Nat.eqb_eq _ _) Hlen) in Hidx.
  destruct (Z.lt_ge_cases n 0) as [Hneg|Hpos].
  { rewrite (py_str_neg n Hneg) in Hyear. discriminate Hyear. }
  pose proof (py_str_value n Hpos) as Hval.
  pose proof (py_str_tail_digits n 9 ltac:(lia)) as Hdig.
  apply stid_year_prefix in Hyear as (y & post & Hy & Hs).
  apply stid_fixed_part in Hfixed as (post' & Hs').
  rewrite Hs in *. clear Hs.
  cbn [skipn] in Hs'. rewrite drop_0 in Hs'. subst post. cbn [skipn] in Hdig.
  destruct post' as [|c9 [|c10 [|]]]; try discriminate Hlen. clear Hlen.
  apply Forall_cons in Hdig as [H9 Hdig]. apply Forall_cons in Hdig as [H10 _].
  unfold slice in Hidx. cbn [skipn firstn Nat.sub] in Hidx.
  unfold py_int in Hidx. cbn [forallb] in Hidx. rewrite H9, H10 in Hidx.
  cbn [andb fold_left] in Hidx.
  apply negb_true_iff, negb_false_iff, andb_true_iff in Hidx as [Hhi Hlo].
  apply Z.leb_le in Hhi, Hlo.
  cbn [fold_left] in Hval.
  exists y, (10 * (10 * 0 + (c9 - 48)) + (c10 - 48)). lia.
Qed.

Lemma accepted_stids_pass : forallb stid_rules_pass accepted_stids = true.
Proof. vm_compute. reflexivity. Qed.

Lemma stid_rules_pass_iff n :
  stid_rules_pass n = true
  <-> exists y ii, 0 <= y <= 2 /\ 1 <= ii <= 99 /\ n = 40011415000 + y * 100000000 + ii.
Proof.
  split; [apply stid_rules_pass_form|].
  intros (y & ii & Hy & Hii & ->).
  pose proof accepted_stids_pass as H. rewrite forallb_forall in H.
  apply H, list_elem_of_In. unfold accepted_stids.
  apply list_elem_of_bind. exists y. split.
  - apply list_elem_of_bind. exists ii. split; [apply list_elem_of_here|].
    apply elem_of_seqZ. lia.
  - assert (y = 0 \/ y = 1 \/ y = 2) as [-> | [-> | ->]] by lia;
      repeat first [apply list_elem_of_here | apply list_elem_of_further].
Qed.

(** X8. The four rules of [create_std] on the student identifier pass
    together exactly for the numbers 40011415001 to 40011415099 and
    the same range under the prefixes 401 and 402: the digits 114150
    after a year prefix of 400, 401 or 402, and an index from 01 to
    99. *)
Theorem accepted_student_ids (env : Env) (db : DB) (users : Student.t) :
  (forall key, key ∈ ["STID"; "STID1"; "STID2"; "STID3"] ->
               (key, true) ∉ student_rules env db users)
  <-> exists y ii,
        0 <= y <= 2 /\ 1 <= ii <= 99
        /\ Student.STID users = 40011415000 + y * 100000000 + ii.
Proof.
  rewrite <- stid_rules_pass_iff. unfold stid_rules_pass, student_rules. split.
  - intros H.
    destruct (length (py_str (Student.STID users)) =? 11)%nat eqn:E0.
    2: { exfalso. apply (H "STID"); [apply list_elem_of_here|].
         do 2 apply list_elem_of_further. apply list_elem_of_here. }
    destruct (re_match stid_year_pattern (py_str (Student.STID users))) eqn:E1.
    2: { exfalso. apply (H "STID1"); [apply list_elem_of_further, list_elem_of_here|].
         do 3 apply list_elem_of_further. apply list_elem_of_here. }
    destruct (re_match stid_fixed_pattern (py_str (Student.STID users))) eqn:E2.
    2: { exfalso. apply (H "STID2");
           [do 2 apply list_elem_of_further; apply list_elem_of_here|].
         do 4 apply list_elem_of_further. apply list_elem_of_here. }
    cbn [andb negb].
    destruct (match py_int (slice 9 11 (py_str (Student.STID users))) with
              | Ok v => negb ((v <=? 99) && (1 <=? v))
              | Raise _ => false
              end) eqn:E3; [|reflexivity].
    exfalso. apply (H "STID3"); [do 3 apply list_elem_of_further; apply list_elem_of_here|].
    do 5 apply list_elem_of_further. apply list_elem_of_here.
  - intros H key Hkey Hin.
    apply andb_true_iff in H as [H H3]. apply andb_true_iff in H as [H H2].
    apply andb_true_iff in H as [H0 H1]. apply negb_true_iff in H3.
    rewrite H3, H0, H1, H2 in Hin. cbn [negb] in Hin.
    repeat (apply elem_of_cons in Hkey as [->|Hkey]);
      [..|apply elem_of_nil in Hkey; contradiction];
      repeat (apply elem_of_cons in Hin as [Hin|Hin]);
      try discriminate Hin; apply elem_of_nil in Hin; contradiction.
Qed.

Lemma accepted_student_ids_witness :
  ("STID2", true) ∉ student_rules sample_env empty_db
                      (sample_student (ali, ali, ali) (Some []) (Some [])).
Proof.
  apply (accepted_student_ids sample_env empty_db
           (sample_student (ali, ali, ali) (Some []) (Some []))).
  - exists 1, 1. repeat split; try lia; reflexivity.
  - do 2 apply list_elem_of_further. apply list_elem_of_here.
Defined.

(** ** What the create handlers report, exactly *)





(** *** What the rules leave to the database *)













(** ** Rules on the number of characters of a number *)

(** [str(n)] has two characters or more exactly for the numbers with
    that many digits and for the negative numbers with one digit
    less. *)
Lemma py_str_length_iff n (k : nat) :
  length (py_str n) = S (S k)
  <-> 10 ^ Z.of_nat (S k) <= n < 10 ^ Z.of_nat (S (S k))
      \/ - 10 ^ Z.of_nat (S k) < n <= - 10 ^ Z.of_nat k.
Proof.
  assert (0 < 10 ^ Z.of_nat k) as Hk by (apply Z.pow_pos_nonneg; lia).
  assert (10 ^ Z.of_nat (S k) = 10 * 10 ^ Z.of_nat k) as Hk1
    by (rewrite Nat2Z.inj_succ, Z.pow_succ_r by lia; reflexivity).
  split.
  - intros Hlen. destruct (Z.lt_ge_cases n 0) as [Hneg|Hpos].
    + right. rewrite (py_str_neg n Hneg) in Hlen. cbn [length] in Hlen.
      destruct (Z.lt_ge_cases (- n) (10 ^ Z.of_nat k)) as [Hs|Hs].
      * destruct k as [|k'].
        -- change (10 ^ Z.of_nat 0) with 1 in Hs. lia.
        -- pose proof (py_str_length_small (- n) k'). lia.
      * destruct (Z.lt_ge_cases (- n) (10 ^ Z.of_nat (S k))) as [Hl|Hl]; [lia|].
        pose proof (py_str_length_large (- n) (S k) Hl). lia.
    + left. destruct (Z.lt_ge_cases n (10 ^ Z.of_nat (S k))) as [Hs|Hs].
      * pose proof (py_str_length_small n k). lia.
      * destruct (Z.lt_ge_cases n (10 ^ Z.of_nat (S (S k)))) as [Hl|Hl]; [lia|].
        pose proof (py_str_length_large n (S (S k)) Hl). lia.
  - intros [H|H].
    + apply py_str_length, H.
    + rewrite py_str_neg by lia. cbn [length]. f_equal.
      apply py_str_length. lia.
Qed.

(** X11. The rules on the number of digits count the characters of
    [str], minus sign included. A course identifier passes for 10000
    to 99999 and also for -9999 to -1000; a student postal code passes
    for the numbers of ten digits and also for the negative numbers of
    nine digits. *)
Theorem digit_count_rules (env : Env) (db : DB) (ln : Lesson.t) (users : Student.t) :
  (("CID", true) ∉ course_rules ln
   <-> 10000 <= Lesson.CID ln <= 99999 \/ -9999 <= Lesson.CID ln <= -1000)
  /\ (("postal_code", true) ∉ student_rules env db users
      <-> 10 ^ 9 <= Student.PostalCode users < 10 ^ 10
          \/ - 10 ^ 9 < Student.PostalCode users <= - 10 ^ 8).
Proof.
  split.
  - pose proof (py_str_length_iff (Lesson.CID ln) 3) as Hiff.
    change (10 ^ Z.of_nat 4) with 10000 in Hiff.
    change (10 ^ Z.of_nat 5) with 100000 in Hiff.
    change (10 ^ Z.of_nat 3) with 1000 in Hiff.
    unfold course_rules. split.
    + intros H.
      destruct (Nat.eqb_spec (length (py_str (Lesson.CID ln))) 5) as [E|E].
      * apply Hiff in E. lia.
      * exfalso. apply H, list_elem_of_here.
    + intros H Hin.
      assert (length (py_str (Lesson.CID ln)) = 5%nat) as E by (apply Hiff; lia).
      rewrite E in Hin.
      repeat (apply elem_of_cons in Hin as [Hin|Hin]);
        try discriminate Hin; apply elem_of_nil in Hin; contradiction.
  - pose proof (py_str_length_iff (Student.PostalCode users) 8) as Hiff.
    change (Z.of_nat 9) with 9 in Hiff. change (Z.of_nat 10) with 10 in Hiff.
    change (Z.of_nat 8) with 8 in Hiff.
    unfold student_rules. split.
    + intros H.
      destruct (Nat.eqb_spec (length (py_str (Student.PostalCode users))) 10) as [E|E].
      * apply Hiff in E. lia.
      * exfalso. apply H. do 13 apply list_elem_of_further. apply list_elem_of_here.
    + intros H Hin.
      assert (length (py_str (Student.PostalCode users)) = 10%nat) as E
        by (apply Hiff; lia).
      rewrite E in Hin.
      repeat (apply elem_of_cons in Hin as [Hin|Hin]);
        try discriminate Hin; apply elem_of_nil in Hin; contradiction.
Qed.

Lemma digit_count_rules_witness :
  ("CID", true) ∉ course_rules {| Lesson.CID := -1234; Lesson.CName := ali;
                                  Lesson.Department := eqtesad;
                                  Lesson.Credit := u "3" |}.
Proof.
  apply (digit_count_rules sample_env empty_db
           {| Lesson.CID := -1234; Lesson.CName := ali;
              Lesson.Department := eqtesad; Lesson.Credit := u "3" |}
           (sample_student (ali, ali, ali) (Some []) (Some []))).
  right. cbn [Lesson.CID]. lia.
Defined.

(** ** Writing and reading back *)








(** X14. After a deletion that succeeds the row is gone: reading it or
    deleting it again raises the not-found error, while the rows of the
    other identifiers and the other two tables are as before. This
    holds for students, masters and lessons alike. *)
Theorem delete_then_missing (db db' : DB) (id : Z) (msg : pystr) :
  (del_std db id = Ok (msg, db') ->
   is_Some (students db !! id)
   /\ get_std db' id = Raise (crud.not_found "student is not found")
   /\ del_std db' id = Raise (crud.not_found "student is not found")
   /\ (forall id', id' <> id -> get_std db' id' = get_std db id')
   /\ masters db' = masters db /\ lessons db' = lessons db)
  /\ (del_msr db id = Ok (msg, db') ->
      is_Some (masters db !! id)
      /\ get_msr db' id = Raise (crud.not_found "master is not found")
      /\ del_msr db' id = Raise (crud.not_found "master is not found")
      /\ (forall id', id' <> id -> get_msr db' id' = get_msr db id')
      /\ students db' = students db /\ lessons db' = lessons db)
  /\ (del_lsn db id = Ok (msg, db') ->
      is_Some (lessons db !! id)
      /\ get_csr db' id = Raise (crud.not_found "lesson is not found")
      /\ del_lsn db' id = Raise (crud.not_found "lesson is not found")
      /\ (forall id', id' <> id -> get_csr db' id' = get_csr db id')
      /\ students db' = students db /\ masters db' = masters db).
Proof.
  unfold del_std, del_msr, del_lsn, get_std, get_msr, get_csr,
    crud.del_std, crud.del_msr, crud.del_lsn,
    crud.get_student, crud.get_msr, crud.get_lsn.
  split; [|split].
  - destruct (students db !! id) eqn:Hrow; [|discriminate]. intros [= _ <-].
    cbn [students masters lessons set_students]. rewrite lookup_delete_eq.
    repeat split; eauto. intros id' Hne. rewrite lookup_delete_ne by congruence.
    reflexivity.
  - destruct (masters db !! id) eqn:Hrow; [|discriminate]. intros [= _ <-].
    cbn [students masters lessons set_masters]. rewrite lookup_delete_eq.
    repeat split; eauto. intros id' Hne. rewrite lookup_delete_ne by congruence.
    reflexivity.
  - destruct (lessons db !! id) eqn:Hrow; [|discriminate]. intros [= _ <-].
    cbn [students masters lessons set_lessons]. rewrite lookup_delete_eq.
    repeat split; eauto. intros id' Hne. rewrite lookup_delete_ne by congruence.
    reflexivity.
Qed.

Lemma delete_then_missing_witness :
  get_csr empty_db 12345 = Raise (crud.not_found "lesson is not found").
Proof.
  destruct (delete_then_missing
              (set_lessons empty_db {[ 12345 := lesson_dump (sample_lesson (u "3")) ]})
              empty_db 12345 crud.deleted) as (_ & _ & H).
  apply H. reflexivity.
Defined.

Lemma union_twice (m r : gmap string pyval) : m ∪ (m ∪ r) = m ∪ r.
Proof.
  apply map_eq. intros key. rewrite !lookup_union.
  destruct (m !! key), (r !! key); reflexivity.
Qed.

(** X15. After an update of [crud.update_student] or
    [crud.update_course] that succeeds, the row that is read back is
    the row the update returned; the rows of the other identifiers and
    the other tables are as before; and the same update applied again
    returns the same row and leaves the store as it is. *)
Theorem update_read_back (db db' : DB) (id : Z) (updated_data r : gmap string pyval) :
  (crud.update_student db id updated_data = Ok (r, db') ->
   crud.get_student db' id = Ok r
   /\ crud.update_student db' id updated_data = Ok (r, db')
   /\ (forall id', id' <> id -> students db' !! id' = students db !! id')
   /\ masters db' = masters db /\ lessons db' = lessons db)
  /\ (crud.update_course db id updated_data = Ok (r, db') ->
      crud.get_lsn db' id = Ok r
      /\ crud.update_course db' id updated_data = Ok (r, db')
      /\ (forall id', id' <> id -> lessons db' !! id' = lessons db !! id')
      /\ students db' = students db /\ masters db' = masters db).
Proof.
  split.
  - intros H. apply update_student_ok in H as (row & Hrow & _ & -> & ->).
    unfold crud.get_student.
    cbn [students masters lessons set_students]. rewrite lookup_insert_eq.
    repeat split.
    + rewrite (update_student_found _ id (crud.drop_none updated_data ∪ row))
        by (cbn [students set_students]; apply lookup_insert_eq).
      rewrite union_twice, update_row_same. cbn [mbind res_bind students set_students].
      rewrite insert_insert_eq. reflexivity.
    + intros id' Hne. rewrite lookup_insert_ne by congruence. reflexivity.
  - intros H. apply update_course_ok in H as (row & Hrow & _ & -> & ->).
    unfold crud.get_lsn.
    cbn [students masters lessons set_lessons]. rewrite lookup_insert_eq.
    repeat split.
    + rewrite (update_course_found _ id (crud.drop_none updated_data ∪ row))
        by (cbn [lessons set_lessons]; apply lookup_insert_eq).
      rewrite union_twice, update_row_same. cbn [mbind res_bind lessons set_lessons].
      rewrite insert_insert_eq. reflexivity.
    + intros id' Hne. rewrite lookup_insert_ne by congruence. reflexivity.
Qed.

Lemma update_read_back_witness :
  crud.get_lsn
    (set_lessons empty_db {[ 12345 := lesson_dump (sample_lesson (u "4")) ]}) 12345
  = Ok (lesson_dump (sample_lesson (u "4"))).
Proof.
  destruct (update_read_back
              (set_lessons empty_db {[ 12345 := lesson_dump (sample_lesson (u "3")) ]})
              (set_lessons empty_db {[ 12345 := lesson_dump (sample_lesson (u "4")) ]})
              12345 {[ "Credit" := VStr (u "4") ]}
              (lesson_dump (sample_lesson (u "4")))) as [_ H].
  apply H. vm_compute. reflexivity.
Defined.

(** ** The update handlers *)

Lemma only_lists_dump courses lids :
  student_update_dump (only_lists_update courses lids)
  = <["SCourseIDs" := of_list_opt courses]> (<["LIDs" := of_list_opt lids]> ∅).
Proof. reflexivity. Qed.

Lemma update_std_only_lists env db id courses lids :
  update_std env db id (only_lists_update courses lids)
  = crud.update_student db id
      (<["SCourseIDs" := of_list_opt courses]> (<["LIDs" := of_list_opt lids]> ∅)).
Proof.
  unfold update_std. rewrite only_lists_dump.
  rewrite bool_decide_eq_false_2 by apply insert_non_empty.
  reflexivity.
Qed.

(** X16. An update of an identifier that is not stored never succeeds.
    [upd_mas] and [upt_cour] look the row up first and report it as
    missing whatever the payload holds; [update_std] runs its rules
    first and reports the missing student only for a payload that
    passes them, such as one that sets nothing but the two lists. *)
Theorem update_of_missing_id (env : Env) (db : DB) (id : Z) :
  (students db !! id = None ->
   (forall student_update r, update_std env db id student_update <> Ok r)
   /\ (forall courses lids,
         update_std env db id (only_lists_update courses lids)
         = Raise (crud.not_found "student is not found")))
  /\ (masters db !! id = None ->
      forall mr, upd_mas env db id mr
                 = Raise (HTTPException 404 (DetailStr (u "There is no such master"))))
  /\ (lessons db !! id = None ->
      forall ln, upt_cour db id ln
                 = Raise (HTTPException 400 (DetailStr (u "CID is not found")))).
Proof.
  split; [|split].
  - intros Hrow. split.
    + intros student_update r H. unfold update_std in H.
      destruct (bool_decide _) in H; [discriminate H|].
      run_binds H. split_empty H He.
      unfold crud.update_student in H. rewrite Hrow in H. discriminate H.
    + intros courses lids. rewrite update_std_only_lists.
      unfold crud.update_student. rewrite Hrow. reflexivity.
  - intros Hrow mr. unfold upd_mas. rewrite Hrow. reflexivity.
  - intros Hrow ln. unfold upt_cour. rewrite Hrow. reflexivity.
Qed.

Lemma update_of_missing_id_witness :
  update_std sample_env empty_db 40111415001 (only_lists_update (Some [12345]) None)
  = Raise (crud.not_found "student is not found").
Proof.
  destruct (update_of_missing_id sample_env empty_db 40111415001) as [H _].
  apply H. reflexivity.
Defined.




(** X18. [master] and [upd_mas] store a master only when every
    identifier of a list of courses that is given and not empty is the
    identifier of a stored lesson. *)
Theorem master_courses_exist (env : Env) (db db' : DB) (r : gmap string pyval)
    (courses : list Z) :
  (forall mr,
     master env db mr = Ok (r, db') ->
     Master.LCourseIDs mr = Some courses ->
     Forall (fun id => is_Some (lessons db !! id)) courses)
  /\ (forall LID mr,
        upd_mas env db LID mr = Ok (r, db') ->
        UpdateMaster.LCourseIDs mr = Some (Some courses) ->
        Forall (fun id => is_Some (lessons db !! id)) courses).
Proof.
  split.
  - intros mr H Hc. unfold master in H. rewrite Hc in H.
    destruct (masters db !! Master.LID mr); [discriminate H|].
    run_binds H. split_empty H He.
    destruct courses as [|c cs]; [constructor|].
    apply (check_refs_empty_inv (lessons db) "LCourseIDs" "Lesson with ID " (c :: cs))
      in He as [_ He].
    exact He.
  - intros LID mr H Hc. unfold upd_mas in H. rewrite Hc in H.
    destruct (masters db !! LID); [|discriminate H].
    destruct (bool_decide _) in H; [discriminate H|].
    run_binds H. split_empty H He.
    destruct courses as [|c cs]; [constructor|].
    apply (check_refs_empty_inv (lessons db) "LCourseIDs" "Lesson with ID " (c :: cs))
      in He as [_ He].
    exact He.
Qed.

Lemma master_courses_exist_witness :
  Forall (fun id => is_Some
                      (lessons (set_lessons empty_db
                                  {[ 12345 := lesson_dump (sample_lesson (u "3")) ]})
                       !! id)) [12345].
Proof.
  destruct (master_courses_exist sample_env
              (set_lessons empty_db {[ 12345 := lesson_dump (sample_lesson (u "3")) ]})
              (set_masters
                 (set_lessons empty_db {[ 12345 := lesson_dump (sample_lesson (u "3")) ]})
                 {[ 123456 := master_dump (sample_master (Some [12345])) ]})
              (master_dump (sample_master (Some [12345]))) [12345]) as [H _].
  apply (H (sample_master (Some [12345]))); [|reflexivity].
  vm_cast_no_check
    (eq_refl (Ok (A := gmap string pyval * DB)
                (master_dump (sample_master (Some [12345])),
                 set_masters
                   (set_lessons empty_db {[ 12345 := lesson_dump (sample_lesson (u "3")) ]})
                   {[ 123456 := master_dump (sample_master (Some [12345])) ]}))).
Defined.

(** ** Which missing identifier is named *)

Lemma check_refs_app table key what ids1 ids2 errors :
  check_refs table key what (ids1 ++ ids2) errors
  = check_refs table key what ids2 (check_refs table key what ids1 errors).
Proof. unfold check_refs. apply foldl_app. Qed.

(** The error of the loop names the last identifier that is missing. *)
Lemma check_refs_last table key what pre id post errors :
  table !! id = None ->
  Forall (fun id' => is_Some (table !! id')) post ->
  check_refs table key what (pre ++ id :: post) errors !! key
  = Some (u what ++ py_str id ++ u " not found").
Proof.
  intros Hid Hpost. rewrite check_refs_app.
  change (id :: post) with ([id] ++ post). rewrite check_refs_app.
  rewrite (check_refs_found table key what post) by exact Hpost.
  unfold check_refs at 1. cbn [foldl]. rewrite Hid. apply lookup_insert_eq.
Qed.

(** X19. When several courses of a new student are missing, the
    aggregate error of [create_std] names one of them under [Lcourse]:
    the one that comes last in the list. *)
Theorem create_std_names_last_missing (env : Env) (db : DB) (users : Student.t)
    (pre post lids : list Z) (id : Z) :
  students db !! Student.STID users = None ->
  Student.SCourseIDs users = Some (pre ++ id :: post) ->
  Student.LIDs users = Some lids ->
  0 <= Student.ID users ->
  jstrptime env (VStr (Student.Birth users)) = None
  \/ jstrptime env (VStr (Student.Birth users)) = Some ValueError ->
  lessons db !! id = None ->
  Forall (fun id' => is_Some (lessons db !! id')) post ->
  exists errors,
    create_std env db users = Raise (HTTPException 400 (DetailValidation errors))
    /\ errors !! "Lcourse" = Some (u "Lesson with ID " ++ py_str id ++ u " not found").
Proof.
  intros Hnew Hc Hl Hid Hdate Hmiss Hpost. unfold create_std.
  rewrite Hc, Hl, Hnew. cbn [py_iter mbind res_bind].
  destruct (validate_national_id_total _ Hid) as [b ->].
  assert (exists birth, check_shamsi env (VStr (Student.Birth users)) = Ok birth) as [birth ->].
  { unfold check_shamsi. destruct Hdate as [-> | ->]; eauto. }
  assert (exists index_wrong,
    (if (length (py_str (Student.STID users)) =? 11)%nat
     then v ← py_int (slice 9 11 (py_str (Student.STID users)));
          Ok (negb ((v <=? 99) && (1 <=? v)))
     else Ok false) = Ok index_wrong) as (index_wrong & ->).
  { destruct (Nat.eqb_spec (length (py_str (Student.STID users))) 11) as [H11|_].
    - destruct (stid_index_total _ H11) as [v ->]. eauto.
    - eauto. }
  cbn [mbind res_bind].
  match goal with
  | |- context [bool_decide (?E = ∅)] => set (errors := E)
  end.
  assert (errors !! "Lcourse"
          = Some (u "Lesson with ID " ++ py_str id ++ u " not found")) as Hkey.
  { subst errors. rewrite !lookup_set_if_ne by discriminate.
    rewrite lookup_check_refs_ne by discriminate.
    apply check_refs_last; assumption. }
  exists errors. split; [|exact Hkey].
  destruct (bool_decide_reflect (errors = ∅)) as [He|_]; [|reflexivity].
  rewrite He, lookup_empty in Hkey. discriminate Hkey.
Qed.

Lemma create_std_names_last_missing_witness :
  exists errors,
    create_std sample_env empty_db
      (sample_student (ali, ali, ali) (Some [11111; 22222]) (Some []))
    = Raise (HTTPException 400 (DetailValidation errors))
    /\ errors !! "Lcourse" = Some (u "Lesson with ID 22222 not found").
Proof.
  apply (create_std_names_last_missing sample_env empty_db
           (sample_student (ali, ali, ali) (Some [11111; 22222]) (Some []))
           [11111] [] [] 22222);
    try reflexivity; try (left; reflexivity); try constructor.
  vm_compute. discriminate.
Defined.

(** ** The landline number *)

Lemma re_findall_anchored r s :
  re_findall (RCat RBol r) s = re_match (RCat RBol r) s.
Proof.
  unfold re_findall, re_match. cbn [seq existsb].
  assert (forall l, Forall (fun i => (0 < i)%nat) l ->
            existsb (fun i => match ends (RCat RBol r) s i with
                              | [] => false
                              | _ :: _ => true
                              end) l = false) as Hrest.
  { induction l as [|i l IH]; intros Hl; [reflexivity|].
    apply Forall_cons in Hl as [Hi Hl]. cbn [existsb]. rewrite (IH Hl).
    destruct i; [lia|]. reflexivity. }
  rewrite Hrest, orb_false_r; [reflexivity|].
  apply Forall_forall. intros i Hi. apply list_elem_of_In, in_seq in Hi. lia.
Qed.

Lemma landline_prefix s :
  re_findall landline_pattern s = true <-> exists rest, s = u "066" ++ rest.
Proof.
  unfold landline_pattern. rewrite re_findall_anchored, re_match_elem.
  cbn [ends Nat.eqb]. split.
  - intros [j Hj]. apply list_elem_of_bind in Hj as (j0 & Hj & Hj0).
    apply list_elem_of_singleton in Hj0 as ->.
    apply ends_lit_elem in Hj as [_ [rest H]]. rewrite drop_0 in H. eauto.
  - intros [rest ->]. exists 3%nat. apply list_elem_of_bind. exists 0%nat.
    split; [|apply list_elem_of_here].
    apply ends_lit_elem. split; [reflexivity|]. exists rest. apply drop_0.
Qed.

(** X20. The two landline rules of [create_std] pass together exactly
    for the values of eleven characters that start with 066; the eight
    characters that follow are not looked at. *)
Theorem landline_rules (env : Env) (db : DB) (users : Student.t) :
  ("landline_number", true) ∉ student_rules env db users
  <-> exists rest, Student.HPhone users = u "066" ++ rest /\ length rest = 8%nat.
Proof.
  unfold student_rules. split.
  - intros H.
    destruct (Nat.eqb_spec (length (Student.HPhone users)) 11) as [E|E].
    2: { exfalso. apply H. do 15 apply list_elem_of_further. apply list_elem_of_here. }
    destruct (re_findall landline_pattern (Student.HPhone users)) eqn:E'.
    2: { exfalso. apply H. do 15 apply list_elem_of_further. apply list_elem_of_here. }
    apply landline_prefix in E' as [rest Hrest]. exists rest. split; [exact Hrest|].
    rewrite Hrest, length_app in E. cbn [length u] in E. simpl in E. lia.
  - intros (rest & Hrest & Hlen) Hin.
    assert (re_findall landline_pattern (Student.HPhone users) = true) as E'
      by (apply landline_prefix; eauto).
    assert (length (Student.HPhone users) = 11%nat) as E
      by (rewrite Hrest, length_app, Hlen; reflexivity).
    rewrite E', E in Hin. cbn [Nat.eqb negb orb] in Hin.
    repeat (apply elem_of_cons in Hin as [Hin|Hin]);
      try discriminate Hin; apply elem_of_nil in Hin; contradiction.
Qed.

Lemma landline_rules_witness :
  ("landline_number", true)
  ∉ student_rules sample_env empty_db
      (sample_student_with (ali, ali, ali) (u "066-nodigit") married_no (Some []) (Some [])).
Proof.
  apply (landline_rules sample_env empty_db
           (sample_student_with (ali, ali, ali) (u "066-nodigit") married_no
              (Some []) (Some []))).
  exists (u "-nodigit"). split; reflexivity.
Defined.

(** ** Updating a course *)




(** ** What an update request changes *)



(** ** A master without a list of courses *)

(** The column [LCourseIDs] is declared [nullable=False]: a row that is
    accepted with a list is refused with [IntegrityError] when the list
    is null. *)
Lemma master_insert_null mr courses :
  insert_row model.Master (master_dump (with_courses mr (Some courses))) = Ok tt ->
  insert_row model.Master (master_dump (with_courses mr None)) = Raise IntegrityError.
Proof.
  destruct mr as [LID FName LName ID Department Major Birth BornCity Address
                  PostalCode CPhone HPhone LCourseIDs].
  unfold insert_row, model.Master, with_courses.
  cbn [write Master.LID Master.FName Master.LName Master.ID Master.Department
       Master.Major Master.Birth Master.BornCity Master.Address Master.PostalCode
       Master.CPhone Master.HPhone Master.LCourseIDs].
  repeat match goal with
         | |- context [?d !! ?k] =>
             let v := eval vm_compute in (d !! k) in change (d !! k) with v
         end.
  repeat match goal with
         | |- context [refused ?c (Some (VInt ?n))] =>
             destruct (refused c (Some (VInt n))); [discriminate|]
         | |- context [refused ?c (Some (VStr ?s))] =>
             destruct (refused c (Some (VStr s))); [discriminate|]
         end.
  reflexivity.
Qed.

(** X23. The schema of a master allows a null list of courses, and
    [master] skips its check of the courses for it, but the table does
    not take it: a master that [master] stores when it is sent with an
    empty list is refused by the database, with [IntegrityError], when
    it is sent with a null list. *)
Theorem master_needs_course_list (env : Env) (db : DB) (mr : Master.t)
    (r : gmap string pyval * DB) :
  master env db (with_courses mr (Some [])) = Ok r ->
  master env db (with_courses mr None) = Raise IntegrityError.
Proof.
  unfold master.
  cbn [with_courses Master.LID Master.FName Master.LName Master.ID Master.Department
       Master.Major Master.Birth Master.BornCity Master.Address Master.PostalCode
       Master.CPhone Master.HPhone Master.LCourseIDs].
  intros H. destruct (masters db !! Master.LID mr) eqn:Hnew; [discriminate H|].
  run_binds H. cbn [mbind res_bind]. split_empty H He.
  rewrite bool_decide_eq_true_2 by exact He.
  destruct r as [r db']. apply create_master_ok in H as (Hw & _).
  apply master_insert_null in Hw.
  unfold crud.create_master. rewrite Hw. reflexivity.
Qed.

Lemma master_needs_course_list_witness :
  master sample_env empty_db (sample_master None) = Raise IntegrityError.
Proof.
  apply (master_needs_course_list sample_env empty_db (sample_master (Some [12345]))
           (master_dump (sample_master (Some [])),
            set_masters empty_db {[ 123456 := master_dump (sample_master (Some [])) ]})).
  vm_cast_no_check
    (eq_refl (Ok (A := gmap string pyval * DB)
                (master_dump (sample_master (Some [])),
                 set_masters empty_db
                   {[ 123456 := master_dump (sample_master (Some [])) ]}))).
Defined.
